(** * Bay booking webhook: time utilities, availability resolver,
      booking and cancellation

    A shallow embedding of [cloud-function/main.py].  The Python strings
    the functions exchange are modelled as [string] over ASCII; [None] is
    [option]'s [None]; an exception caught by a function's own
    [except Exception] is the branch returning what the handler returns. *)

From Stdlib Require Import ZArith Zdiv List String Ascii Bool Lia.
From Stdlib Require Import Numbers.DecimalString Sorting.Sorted.
Import ListNotations.

Open Scope string_scope.
Open Scope Z_scope.

(** ** Python string primitives used by the source *)

Module PyStr.

Definition code (c : ascii) : Z := Z.of_N (N_of_ascii c).

(** ASCII characters Python treats as whitespace ([str.isspace], the
    [\s] class of [re] and the blanks [int()] strips). *)
Definition is_space (c : ascii) : bool :=
  let n := code c in
  ((9 <=? n) && (n <=? 13)) || ((28 <=? n) && (n <=? 32)).

Definition in_range (lo hi : ascii) (c : ascii) : bool :=
  (code lo <=? code c) && (code c <=? code hi).

Definition is_digit : ascii -> bool := in_range "0" "9".

Definition digit_val (c : ascii) : Z := code c - 48.

Definition digit_char (d : Z) : ascii := ascii_of_N (Z.to_N (48 + d)).

(** [str.lower()] on ASCII letters. *)
Definition lower_char (c : ascii) : ascii :=
  if in_range "A" "Z" c then ascii_of_N (Z.to_N (code c + 32)) else c.

Fixpoint lower (s : string) : string :=
  match s with
  | EmptyString => EmptyString
  | String c r => String (lower_char c) (lower r)
  end.

(** [s.split(' ')[0]]: the text before the first space character. *)
Fixpoint split_space_head (s : string) : string :=
  match s with
  | EmptyString => EmptyString
  | String c r =>
      if Ascii.eqb c " " then EmptyString else String c (split_space_head r)
  end.

Fixpoint all_space (s : string) : bool :=
  match s with
  | EmptyString => true
  | String c r => is_space c && all_space r
  end.

Fixpoint lstrip (s : string) : string :=
  match s with
  | EmptyString => EmptyString
  | String c r => if is_space c then lstrip r else s
  end.

(** The digit run of a base-10 literal: digits, single underscores
    allowed between two digits, then blanks up to the end.
    [prev] tells whether the previous character was a digit. *)
Fixpoint int_digits (acc : Z) (prev : bool) (s : string) : option Z :=
  match s with
  | EmptyString => if prev then Some acc else None
  | String c r =>
      if is_digit c then int_digits (10 * acc + digit_val c) true r
      else if Ascii.eqb c "_" then
        (if prev then
           match r with
           | String d _ => if is_digit d then int_digits acc false r else None
           | EmptyString => None
           end
         else None)
      else if prev && all_space s then Some acc
      else None
  end.

(** [int(s)] for a [str] argument: [Some z] for a literal, [None] where
    Python raises [ValueError]. *)
Definition int (s : string) : option Z :=
  match lstrip s with
  | String "+" r => int_digits 0 false r
  | String "-" r => option_map Z.opp (int_digits 0 false r)
  | r => int_digits 0 false r
  end.

(** [str(n)] for an integer. *)
Definition of_Z (z : Z) : string := NilZero.string_of_int (Z.to_int z).

End PyStr.

(** ** A backtracking matcher for the patterns [strptime] compiles *)

Module Re.

(** A matcher lists the ways a pattern can consume a prefix of the
    input, most preferred first, each with the value read and the
    remaining input. *)
Definition matcher (A : Type) : Type := string -> list (A * string).

Definition ret {A} (a : A) : matcher A := fun s => [(a, s)].

Definition bind {A B} (m : matcher A) (k : A -> matcher B) : matcher B :=
  fun s => flat_map (fun '(a, r) => k a r) (m s).

Definition alt {A} (m1 m2 : matcher A) : matcher A :=
  fun s => (m1 s ++ m2 s)%list.

Definition one (p : ascii -> bool) : matcher Z :=
  fun s =>
    match s with
    | String a r => if p a then [(PyStr.digit_val a, r)] else []
    | EmptyString => []
    end.

Definition two (p1 p2 : ascii -> bool) : matcher Z :=
  fun s =>
    match s with
    | String a (String b r) =>
        if p1 a && p2 b
        then [(10 * PyStr.digit_val a + PyStr.digit_val b, r)] else []
    | _ => []
    end.

Definition lit (c : ascii) : matcher unit :=
  fun s =>
    match s with
    | String a r => if Ascii.eqb a c then [(tt, r)] else []
    | EmptyString => []
    end.

(** [\s+], greedy: the longest run of blanks first. *)
Fixpoint spaces (s : string) : list (unit * string) :=
  match s with
  | String c r => if PyStr.is_space c then (spaces r ++ [(tt, r)])%list else []
  | EmptyString => []
  end.

(** A two-letter word, letter case ignored. *)
Definition word2 {A} (x y : ascii) (v : A) : matcher A :=
  fun s =>
    match s with
    | String a (String b r) =>
        if Ascii.eqb (PyStr.lower_char a) x && Ascii.eqb (PyStr.lower_char b) y
        then [(v, r)] else []
    | _ => []
    end.

Definition chr (c : ascii) : ascii -> bool := Ascii.eqb c.

(** [%I]: [1[0-2]|0[1-9]|[1-9]]. *)
Definition dir_I : matcher Z :=
  alt (two (chr "1") (PyStr.in_range "0" "2"))
    (alt (two (chr "0") (PyStr.in_range "1" "9"))
       (one (PyStr.in_range "1" "9"))).

(** [%H]: [2[0-3]|[0-1]\d|\d]. *)
Definition dir_H : matcher Z :=
  alt (two (chr "2") (PyStr.in_range "0" "3"))
    (alt (two (PyStr.in_range "0" "1") PyStr.is_digit)
       (one PyStr.is_digit)).

(** [%M]: [[0-5]\d|\d]. *)
Definition dir_M : matcher Z :=
  alt (two (PyStr.in_range "0" "5") PyStr.is_digit) (one PyStr.is_digit).

(** [%S]: [6[0-1]|[0-5]\d|\d]. *)
Definition dir_S : matcher Z :=
  alt (two (chr "6") (PyStr.in_range "0" "1"))
    (alt (two (PyStr.in_range "0" "5") PyStr.is_digit)
       (one PyStr.is_digit)).

(** [%p]: [am|pm]; [false] is AM, [true] is PM. *)
Definition dir_p : matcher bool :=
  alt (word2 "a" "m" false) (word2 "p" "m" true).

(** [re.match] followed by [strptime]'s test that no input is left:
    the preferred match decides. *)
Definition full_match {A} (m : matcher A) (s : string) : option A :=
  match m s with
  | (a, EmptyString) :: _ => Some a
  | _ => None
  end.

End Re.

Notation "x <- m ;; k" := (Re.bind m (fun x => k))
  (at level 61, m at next level, right associativity).

(** ** Time utilities *)

(** The time of day of a [datetime]. *)
Record clock : Type := Clock { hour : Z; minute : Z; second : Z }.

Definition valid_clock (t : clock) : Prop :=
  0 <= hour t < 24 /\ 0 <= minute t < 60 /\ 0 <= second t < 60.

Definition seconds_of (t : clock) : Z :=
  hour t * 3600 + minute t * 60 + second t.

Definition clock_of_seconds (n : Z) : clock :=
  Clock (n / 3600) ((n mod 3600) / 60) (n mod 60).

Definition two_digits (n : Z) (rest : string) : string :=
  String (PyStr.digit_char (n / 10)) (String (PyStr.digit_char (n mod 10)) rest).

(** [t.strftime('%H:%M:%S')]. *)
Definition strftime_HMS (t : clock) : string :=
  two_digits (hour t)
    (String ":" (two_digits (minute t) (String ":" (two_digits (second t) "")))).

(** [datetime.strptime(s, '%I:%M %p')]: the hour of the 12-hour clock is
    turned into the hour of the day as [_strptime] does. *)
Definition hour_of_12 (i : Z) (pm : bool) : Z :=
  if pm then (if i =? 12 then 12 else i + 12)
  else (if i =? 12 then 0 else i).

Definition strptime_IMp (s : string) : option clock :=
  Re.full_match
    (i <- Re.dir_I ;; _ <- Re.lit ":" ;; m <- Re.dir_M ;;
     _ <- Re.spaces ;; p <- Re.dir_p ;;
     Re.ret (Clock (hour_of_12 i p) m 0)) s.

(** [datetime.strptime(s, '%H:%M:%S')]; the pattern admits seconds 60
    and 61, which the [datetime] constructor then refuses. *)
Definition strptime_HMS (s : string) : option clock :=
  match Re.full_match
          (h <- Re.dir_H ;; _ <- Re.lit ":" ;; m <- Re.dir_M ;;
           _ <- Re.lit ":" ;; x <- Re.dir_S ;; Re.ret (Clock h m x)) s with
  | Some t => if second t <? 60 then Some t else None
  | None => None
  end.

(** [format_start_time]: 12-hour text with AM/PM to ['HH:MM:SS'];
    [None] when [strptime] raises. *)
Definition format_start_time (start_time : string) : option string :=
  match strptime_IMp start_time with
  | Some t => Some (strftime_HMS t)
  | None => None
  end.

(** [strptime] anchors the time at 1900-01-01.  Proleptic ordinals of
    that day and of [datetime.max]'s day, and [timedelta]'s day bound. *)
Definition ordinal_1900 : Z := 693596.
Definition ordinal_max : Z := 3652059.
Definition timedelta_max_days : Z := 999999999.

(** [timedelta(hours=h)]: [None] for [OverflowError]; the value in
    seconds otherwise. *)
Definition timedelta_hours (h : Z) : option Z :=
  if Z.abs (h * 3600 / 86400) <=? timedelta_max_days
  then Some (h * 3600) else None.

(** [start + delta] for [start] on 1900-01-01: seconds since the start
    of day 1, [None] when the sum leaves years 1..9999. *)
Definition datetime_add (t : clock) (delta : Z) : option Z :=
  let total := (ordinal_1900 - 1) * 86400 + seconds_of t + delta in
  if (0 <=? total) && (total <? ordinal_max * 86400) then Some total else None.

(** [generate_end_time]: [start_time] is what [format_start_time]
    returned, so it may be [None], on which [strptime] raises. *)
Definition generate_end_time (duration : string) (start_time : option string)
  : option string :=
  match start_time with
  | None => None
  | Some s =>
      match strptime_HMS s with
      | None => None
      | Some t =>
          match PyStr.int duration with
          | None => None
          | Some h =>
              match timedelta_hours h with
              | None => None
              | Some delta =>
                  match datetime_add t delta with
                  | None => None
                  | Some total =>
                      Some (strftime_HMS (clock_of_seconds (total mod 86400)))
                  end
              end
          end
      end
  end.

(** ** The store *)

(** Modelled from the spec: the schema of table [bays], which the source
    only queries ([id], [status]); spec section 3, ResourceUnit. *)
Module Bay.
Record t : Type := Row { id : Z; status : string }.
End Bay.

(** Modelled from the spec: the schema of table [bookings] (spec section
    3, Reservation), with the column names the source reads and writes.
    Dates, times and the duration are kept as the text the client sends. *)
Module Booking.
Record t : Type := Row {
  id : Z;
  email : string;
  bay_id : Z;
  date : string;
  start_time : string;
  end_time : string;
  status : string;
  duration : string
}.
End Booking.

(** The two tables, each in the order the store returns its rows, and the
    identifier the store gives to the next inserted booking. *)
Record store : Type := Store {
  bays : list Bay.t;
  bookings : list Booking.t;
  next_id : Z
}.

(** [.eq('date', d).lt("start_time", e).gt("end_time", s)] on one row.
    Times are compared as the ['HH:MM:SS'] text they are exchanged in. *)
Definition overlap_filter (booking_date start_time end_time : string)
  (r : Booking.t) : bool :=
  (Booking.date r =? booking_date)%string
  && (Booking.start_time r <? end_time)%string
  && (start_time <? Booking.end_time r)%string.

(** [booked_bay_ids] of [find_a_bay]. *)
Definition booked_bay_ids (db : store) (booking_date start_time end_time : string)
  : list Z :=
  map Booking.bay_id
    (filter (overlap_filter booking_date start_time end_time) (bookings db)).

Definition in_ids (x : Z) (ids : list Z) : bool := existsb (Z.eqb x) ids.

(** [available_bay_ids[0] if available_bay_ids else None]. *)
Definition first_or_none (ids : list Z) : option Z :=
  match ids with
  | x :: _ => Some x
  | [] => None
  end.

(** [.not_.in_('id', booked_bay_ids).eq('status', 'Available')] on one bay. *)
Definition free_and_available (ids : list Z) (b : Bay.t) : bool :=
  negb (in_ids (Bay.id b) ids) && (Bay.status b =? "Available")%string.

(** [find_a_bay].  A [None] time is no value for a time column: the store
    refuses the query, the client raises and the handler returns [None]. *)
Definition find_a_bay (db : store) (booking_date : string)
  (start_time end_time : option string) : option Z :=
  match start_time, end_time with
  | Some s, Some e =>
      let ids := booked_bay_ids db booking_date s e in
      match ids with
      | _ :: _ =>
          let available_bays := filter (free_and_available ids) (bays db) in
          first_or_none (map Bay.id available_bays)
      | [] =>
          let available_bays := bays db in
          first_or_none (map Bay.id available_bays)
      end
  | _, _ => None
  end.

(** ** Requests and responses *)

(** [request['sessionInfo']['parameters']]; a key the request lacks is
    [None], and reading it raises [KeyError]. *)
Record parameters : Type := Parameters {
  booking_id : option Z;
  customer_email : option string;
  booking_duration : option string;
  booking_date : option (Z * Z * Z);
  booking_start_time : option string
}.

(** The response texts of the source, one constructor each. *)
Inductive response : Type :=
| BookingMade (id bay_id : Z) (date : string)
    (* Booking successfully made! Booking number, assigned bay, date *)
| NoBays          (* No bays are available for the selected time. *)
| BookingError    (* There was an error processing your booking. *)
| BookingFailed   (* Something went wrong, when trying to make your booking... *)
| Cancelled       (* Your booking has been cancelled! *)
| NotFound        (* No booking found with the given id and email *)
| CancelFailed    (* Something went wrong, when trying to cancel your booking... *)
| Unsupported.    (* Unsupported request content *)

(** [table('bookings').insert({...}).execute()]: the store numbers the
    row, appends it and returns it in [response.data]. *)
Definition insert_booking (db : store) (email : string) (bay : Z)
  (booking_date start_time end_time st dur : string) : list Booking.t * store :=
  let row := Booking.Row (next_id db) email bay booking_date start_time end_time
               st dur in
  ([row], Store (bays db) (bookings db ++ [row])%list (next_id db + 1)).

(** [f"{int(y)}-{int(m)}-{int(d)}"]. *)
Definition format_date (ymd : Z * Z * Z) : string :=
  let '(y, m, d) := ymd in
  PyStr.of_Z y ++ "-" ++ PyStr.of_Z m ++ "-" ++ PyStr.of_Z d.

(** [new_booking]: the response and the store afterwards. *)
Definition new_booking (db : store) (data : parameters) : response * store :=
  match booking_duration data with
  | None => (BookingFailed, db)
  | Some raw_duration =>
      let duration := PyStr.split_space_head raw_duration in
      match booking_date data with
      | None => (BookingFailed, db)
      | Some ymd =>
          let booking_date := format_date ymd in
          match booking_start_time data with
          | None => (BookingFailed, db)
          | Some raw_start =>
              let start_time := format_start_time raw_start in
              let end_time := generate_end_time duration start_time in
              match find_a_bay db booking_date start_time end_time with
              | None => (NoBays, db)
              | Some bay_id =>
                  match customer_email data, start_time, end_time with
                  | Some email, Some s, Some e =>
                      match insert_booking db email bay_id booking_date s e
                              "booked" duration with
                      | (booking_info :: _, db') =>
                          (BookingMade (Booking.id booking_info)
                             (Booking.bay_id booking_info)
                             (Booking.date booking_info), db')
                      | ([], db') => (BookingError, db')
                      end
                  | _, _, _ => (BookingFailed, db)
                  end
              end
          end
      end
  end.

(** [.update({'status': "cancelled"}).eq("id", i).eq('email', e)]: the
    table afterwards and the rows the update returns. *)
Definition cancel_filter (i : Z) (e : string) (r : Booking.t) : bool :=
  (Booking.id r =? i) && (Booking.email r =? e)%string.

Definition set_status (st : string) (r : Booking.t) : Booking.t :=
  Booking.Row (Booking.id r) (Booking.email r) (Booking.bay_id r)
    (Booking.date r) (Booking.start_time r) (Booking.end_time r) st
    (Booking.duration r).

Definition update_status (i : Z) (e : string) (st : string)
  (rows : list Booking.t) : list Booking.t * list Booking.t :=
  (map (fun r => if cancel_filter i e r then set_status st r else r) rows,
   map (set_status st) (filter (cancel_filter i e) rows)).

(** [cancel_booking]. *)
Definition cancel_booking (db : store) (data : parameters) : response * store :=
  match booking_id data, customer_email data with
  | Some i, Some raw_email =>
      let customer_email := PyStr.lower raw_email in
      let '(rows, updated) := update_status i customer_email "cancelled" (bookings db) in
      let db' := Store (bays db) rows (next_id db) in
      match updated with
      | _ :: _ => (Cancelled, db')
      | [] => (NotFound, db')
      end
  | _, _ => (CancelFailed, db)
  end.

(** [handle_request] on a POST: the fulfillment tag selects the operation. *)
Definition handle_request (db : store) (tag : string) (data : parameters)
  : response * store :=
  if (tag =? "makeNewBooking")%string then new_booking db data
  else if (tag =? "cancelBooking")%string then cancel_booking db data
  else (Unsupported, db).

(** A run of booking requests, each on the store the previous one left. *)
Fixpoint run_bookings (db : store) (reqs : list parameters) : store :=
  match reqs with
  | [] => db
  | data :: rest => run_bookings (snd (new_booking db data)) rest
  end.

(** ** The HTTP entry point *)

Module Http.

(** What [handle_request] reads of the Flask request: the method, the
    fulfillment tag and the session parameters of the JSON body.  A body
    that is no JSON, or lacks ['fulfillmentInfo']['tag'], has tag [None];
    one that lacks ['sessionInfo']['parameters'] has parameters [None]. *)
Record t : Type := Request {
  method : string;
  tag : option string;
  data : option parameters
}.

(** The text handed to Dialogflow: one of the operations' responses, or
    the entry point's own failure text. *)
Inductive reply : Type :=
| Text (r : response)
| RequestFailed.  (* Something went wrong while processing your request... *)

(** What the call gives back: the empty 204 reply to a preflight, the
    200 reply carrying the text, or no reply at all where the function
    raises, [response_text] not being bound. *)
Inductive result : Type :=
| Preflight
| Fulfillment (text : reply)
| Raised.

Definition status_code (r : result) : option Z :=
  match r with
  | Preflight => Some 204
  | Fulfillment _ => Some 200
  | Raised => None
  end.

(** [new_booking(req)] and [cancel_booking(req)] read
    [request['sessionInfo']['parameters']] inside their own [try]. *)
Definition new_booking (db : store) (d : option parameters) : response * store :=
  match d with
  | Some p => new_booking db p
  | None => (BookingFailed, db)
  end.

Definition cancel_booking (db : store) (d : option parameters)
  : response * store :=
  match d with
  | Some p => cancel_booking db p
  | None => (CancelFailed, db)
  end.

(** [handle_request]. *)
Definition handle_request (db : store) (request : t) : result * store :=
  if (method request =? "OPTIONS")%string then (Preflight, db)
  else if (method request =? "POST")%string then
    match tag request with
    | None => (Fulfillment RequestFailed, db)
    | Some tg =>
        if (tg =? "makeNewBooking")%string then
          let '(r, db') := new_booking db (data request) in
          (Fulfillment (Text r), db')
        else if (tg =? "cancelBooking")%string then
          let '(r, db') := cancel_booking db (data request) in
          (Fulfillment (Text r), db')
        else (Fulfillment (Text Unsupported), db)
    end
  else (Raised, db).

(** A run of calls, each on the store the previous one left. *)
Fixpoint run (db : store) (requests : list t) : store :=
  match requests with
  | [] => db
  | request :: rest => run (snd (handle_request db request)) rest
  end.

End Http.

(** ** Notions used in the statements *)

(** The overlap test in the spec's words: [s1, e1) and [s2, e2) overlap
    iff [s1 < e2] and [s2 < e1]. *)
Definition overlap (s1 e1 s2 e2 : string) : bool :=
  (s1 <? e2)%string && (s2 <? e1)%string.

(** No two distinct rows with status booked, on the same date and bay,
    have overlapping intervals. *)
Definition no_double_booking (rows : list Booking.t) : Prop :=
  forall (i j : nat) (r1 r2 : Booking.t),
    i <> j ->
    nth_error rows i = Some r1 -> nth_error rows j = Some r2 ->
    Booking.status r1 = "booked" -> Booking.status r2 = "booked" ->
    Booking.date r1 = Booking.date r2 ->
    Booking.bay_id r1 = Booking.bay_id r2 ->
    overlap (Booking.start_time r1) (Booking.end_time r1)
      (Booking.start_time r2) (Booking.end_time r2) = false.

(** A bay is eligible for a window when the store lists it as Available
    and no booking of the date overlapping the window is on it. *)
Definition eligible (db : store) (d s e : string) (b : Bay.t) : Prop :=
  In b (bays db) /\ Bay.status b = "Available" /\
  ~ In (Bay.id b) (booked_bay_ids db d s e).

(** The sum of the start, anchored at 1900-01-01, and [h] hours stays
    within the years 1..9999 a [datetime] can hold. *)
Definition datetime_range (t : clock) (h : Z) : Prop :=
  0 <= (ordinal_1900 - 1) * 86400 + seconds_of t + h * 3600
    < ordinal_max * 86400.

(** The parameters of a booking request and of a cancellation. *)
Definition request (email : string) (ymd : Z * Z * Z) (start dur : string)
  : parameters :=
  Parameters None (Some email) (Some dur) (Some ymd) (Some start).

Definition cancellation (i : Z) (email : string) : parameters :=
  Parameters (Some i) (Some email) None None None.

(** A small store for the examples: three bays, no bookings. *)
Definition three_bays : store :=
  Store [Bay.Row 1 "Available"; Bay.Row 2 "Available"; Bay.Row 3 "Available"]
    [] 1.

(** A store with two booked rows, on bays 1 and 2. *)
Definition two_booked : store :=
  Store (bays three_bays)
    [Booking.Row 1 "ann@example.com" 1 "2024-1-5" "09:00:00" "11:00:00"
       "booked" "2";
     Booking.Row 2 "bob@example.com" 2 "2024-1-5" "10:00:00" "12:00:00"
       "booked" "2"]
    3.

Definition three_requests : list parameters :=
  [request "cat@example.com" (2024, 1, 5) "10:00 AM" "1 hour";
   request "dan@example.com" (2024, 1, 5) "10:30 AM" "1 hour";
   request "eve@example.com" (2024, 1, 5) "01:00 PM" "2 hours"].

(** Two rows that differ at most in their status. *)
Definition same_but_status (r r' : Booking.t) : Prop :=
  Booking.id r' = Booking.id r /\ Booking.email r' = Booking.email r /\
  Booking.bay_id r' = Booking.bay_id r /\ Booking.date r' = Booking.date r /\
  Booking.start_time r' = Booking.start_time r /\
  Booking.end_time r' = Booking.end_time r /\
  Booking.duration r' = Booking.duration r.

(** The text of a 12-hour time: two digits, a colon, two digits, a
    space, AM or PM. *)
Definition twelve_hour_text (i m : Z) (pm : bool) : string :=
  two_digits i
    (String ":"
       (two_digits m
          (String " " (String (if pm then "P" else "A") (String "M" ""))))).

(** What the requests can make of a row: the same row, or the same row
    with status cancelled. *)
Definition row_evolves (r r' : Booking.t) : Prop :=
  same_but_status r r' /\
  (Booking.status r' = Booking.status r \/ Booking.status r' = "cancelled").

(** * Properties *)

(** ** Characters and digits *)

Lemma code_bounds (c : ascii) : 0 <= PyStr.code c < 256.
Proof.
  unfold PyStr.code. pose proof (N_ascii_bounded c). lia.
Qed.

Lemma in_range_spec (lo hi c : ascii) :
  PyStr.in_range lo hi c = true <->
  PyStr.code lo <= PyStr.code c <= PyStr.code hi.
Proof.
  unfold PyStr.in_range. rewrite andb_true_iff, !Z.leb_le. tauto.
Qed.

Lemma code_digit_char (d : Z) :
  0 <= d < 10 -> PyStr.code (PyStr.digit_char d) = 48 + d.
Proof.
  intros Hd. unfold PyStr.code, PyStr.digit_char.
  rewrite N_ascii_embedding by lia. lia.
Qed.

Lemma digit_val_digit_char (d : Z) :
  0 <= d < 10 -> PyStr.digit_val (PyStr.digit_char d) = d.
Proof.
  intros Hd. unfold PyStr.digit_val. rewrite code_digit_char by lia. lia.
Qed.

Lemma is_digit_digit_char (d : Z) :
  0 <= d < 10 -> PyStr.is_digit (PyStr.digit_char d) = true.
Proof.
  intros Hd. unfold PyStr.is_digit. apply in_range_spec.
  rewrite code_digit_char by lia.
  change (PyStr.code "0") with 48. change (PyStr.code "9") with 57. lia.
Qed.

Lemma compare_digit_char (x y : Z) :
  0 <= x < 10 -> 0 <= y < 10 ->
  Ascii.compare (PyStr.digit_char x) (PyStr.digit_char y) = (x ?= y).
Proof.
  intros Hx Hy. unfold Ascii.compare, PyStr.digit_char.
  rewrite !N_ascii_embedding by lia.
  rewrite Z2N.inj_compare by lia.
  destruct (Z.compare_spec x y), (Z.compare_spec (48 + x) (48 + y));
    reflexivity || lia.
Qed.

(** ** What the directives of [strptime] read *)

Ltac eval_codes :=
  repeat match goal with
    | H : context [PyStr.code (Ascii ?a ?b ?c ?d ?e ?f ?g ?h)] |- _ =>
        let v := eval vm_compute in (PyStr.code (Ascii a b c d e f g h)) in
        change (PyStr.code (Ascii a b c d e f g h)) with v in H
    | |- context [PyStr.code (Ascii ?a ?b ?c ?d ?e ?f ?g ?h)] =>
        let v := eval vm_compute in (PyStr.code (Ascii a b c d e f g h)) in
        change (PyStr.code (Ascii a b c d e f g h)) with v
    end.

Lemma in_two (p1 p2 : ascii -> bool) (s : string) (v : Z) (r : string) :
  In (v, r) (Re.two p1 p2 s) ->
  exists a b, s = String a (String b r) /\ p1 a = true /\ p2 b = true
              /\ v = 10 * PyStr.digit_val a + PyStr.digit_val b.
Proof.
  unfold Re.two. destruct s as [|a [|b s']]; try contradiction.
  destruct (p1 a) eqn:E1, (p2 b) eqn:E2; try contradiction.
  intros [H|[]]. injection H as <- <-. exists a, b. auto.
Qed.

Lemma in_one (p : ascii -> bool) (s : string) (v : Z) (r : string) :
  In (v, r) (Re.one p s) ->
  exists a, s = String a r /\ p a = true /\ v = PyStr.digit_val a.
Proof.
  unfold Re.one. destruct s as [|a s']; try contradiction.
  destruct (p a) eqn:E; try contradiction.
  intros [H|[]]. injection H as <- <-. exists a. auto.
Qed.

Lemma in_bind {A B} (m : Re.matcher A) (k : A -> Re.matcher B) s y :
  In y (Re.bind m k s) <-> exists a r, In (a, r) (m s) /\ In y (k a r).
Proof.
  unfold Re.bind. rewrite in_flat_map. split.
  - intros [[a r] [H1 H2]]. eauto.
  - intros (a & r & H1 & H2). exists (a, r). auto.
Qed.

Lemma full_match_in {A} (m : Re.matcher A) s a :
  Re.full_match m s = Some a -> In (a, EmptyString) (m s).
Proof.
  unfold Re.full_match. destruct (m s) as [|[x [|c r]] l]; try discriminate.
  intros [= ->]. left. reflexivity.
Qed.

Section Directives.

Local Ltac range_facts :=
  repeat match goal with
    | H : PyStr.in_range _ _ _ = true |- _ => apply in_range_spec in H
    | H : PyStr.is_digit _ = true |- _ => apply in_range_spec in H
    | H : Re.chr _ _ = true |- _ => apply Ascii.eqb_eq in H; subst
    end.

Local Ltac directive :=
  intros s v r; unfold Re.alt; rewrite ?in_app_iff;
  intros H;
  repeat match goal with
    | H : _ \/ _ |- _ => destruct H as [H|H]
    end;
  first [ apply in_two in H; destruct H as (a & b & _ & Ha & Hb & ->)
        | apply in_one in H; destruct H as (a & _ & Ha & ->) ];
  range_facts; unfold PyStr.digit_val; eval_codes; lia.


Lemma dir_M_range : forall s v r, In (v, r) (Re.dir_M s) -> 0 <= v < 60.
Proof. unfold Re.dir_M. directive. Qed.


Lemma dir_I_range : forall s v r, In (v, r) (Re.dir_I s) -> 1 <= v <= 12.
Proof. unfold Re.dir_I. directive. Qed.

End Directives.


(** Whatever [strptime_IMp] accepts is a time of day, at second 0. *)
Lemma strptime_IMp_valid (s : string) (t : clock) :
  strptime_IMp s = Some t -> valid_clock t /\ second t = 0.
Proof.
  unfold strptime_IMp. intros E.
  apply full_match_in in E.
  apply in_bind in E. destruct E as (i & r1 & Hi & E).
  apply in_bind in E. destruct E as (_ & r2 & _ & E).
  apply in_bind in E. destruct E as (m & r3 & Hm & E).
  apply in_bind in E. destruct E as (_ & r4 & _ & E).
  apply in_bind in E. destruct E as (p & r5 & _ & E).
  destruct E as [E|[]]. injection E as <- _.
  apply dir_I_range in Hi. apply dir_M_range in Hm.
  unfold valid_clock, hour_of_12. cbn.
  destruct p; destruct (Z.eqb_spec i 12); lia.
Qed.

(** ** Seconds of the day *)

Lemma clock_of_seconds_valid (n : Z) :
  0 <= n < 86400 -> valid_clock (clock_of_seconds n).
Proof.
  intros Hn. unfold valid_clock, clock_of_seconds. cbn.
  pose proof (Z.div_mod n 3600 ltac:(lia)).
  pose proof (Z.mod_pos_bound n 3600 ltac:(lia)).
  pose proof (Z.div_mod (n mod 3600) 60 ltac:(lia)).
  pose proof (Z.mod_pos_bound (n mod 3600) 60 ltac:(lia)).
  pose proof (Z.mod_pos_bound n 60 ltac:(lia)).
  lia.
Qed.



(** ** What [strftime] prints, [strptime] reads back *)

Ltac enum_below h n :=
  lazymatch n with
  | 0 => lia
  | _ => let n' := eval vm_compute in (n - 1) in
         destruct (Z.eq_dec h n') as [->|?]; [|enum_below h n']
  end.

Lemma dir_H_two_digits (h : Z) (rest : string) :
  0 <= h < 24 ->
  Re.dir_H (two_digits h rest) =
  [(h, rest); (h / 10, String (PyStr.digit_char (h mod 10)) rest)].
Proof. intros Hh. enum_below h 24; vm_compute; reflexivity. Qed.

Lemma dir_M_two_digits (m : Z) (rest : string) :
  0 <= m < 60 ->
  Re.dir_M (two_digits m rest) =
  [(m, rest); (m / 10, String (PyStr.digit_char (m mod 10)) rest)].
Proof. intros Hm. enum_below m 60; vm_compute; reflexivity. Qed.

Lemma dir_S_two_digits (x : Z) (rest : string) :
  0 <= x < 60 ->
  Re.dir_S (two_digits x rest) =
  [(x, rest); (x / 10, String (PyStr.digit_char (x mod 10)) rest)].
Proof. intros Hx. enum_below x 60; vm_compute; reflexivity. Qed.

Lemma lit_colon_digit (d : Z) (rest : string) :
  0 <= d < 10 -> Re.lit ":" (String (PyStr.digit_char d) rest) = [].
Proof. intros Hd. enum_below d 10; reflexivity. Qed.

Lemma strptime_strftime_HMS (t : clock) :
  valid_clock t -> strptime_HMS (strftime_HMS t) = Some t.
Proof.
  destruct t as [h m x]. intros (Hh & Hm & Hx). cbn in Hh, Hm, Hx.
  unfold strptime_HMS, strftime_HMS, Re.full_match, Re.bind.
  cbn [hour minute second].
  rewrite dir_H_two_digits by lia. cbn [flat_map].
  rewrite lit_colon_digit by (apply Z.mod_pos_bound; lia).
  change (Re.lit ":" (String ":" ?r)) with [(tt, r)].
  cbn [flat_map app].
  rewrite dir_M_two_digits by lia. cbn [flat_map].
  rewrite lit_colon_digit by (apply Z.mod_pos_bound; lia).
  change (Re.lit ":" (String ":" ?r)) with [(tt, r)].
  cbn [flat_map app].
  rewrite dir_S_two_digits by lia. cbn [flat_map app Re.ret].
  cbn [second]. destruct (Z.ltb_spec x 60); [reflexivity|lia].
Qed.


(** ** The ['HH:MM:SS'] text orders as the time of day does *)

Lemma compare_two_digits (a b : Z) (r1 r2 : string) :
  0 <= a < 100 -> 0 <= b < 100 ->
  String.compare (two_digits a r1) (two_digits b r2) =
  match a ?= b with
  | Eq => String.compare r1 r2
  | c => c
  end.
Proof.
  intros Ha Hb. unfold two_digits. cbn [String.compare].
  pose proof (Z.div_mod a 10 ltac:(lia)).
  pose proof (Z.mod_pos_bound a 10 ltac:(lia)).
  pose proof (Z.div_mod b 10 ltac:(lia)).
  pose proof (Z.mod_pos_bound b 10 ltac:(lia)).
  rewrite !compare_digit_char by lia.
  destruct (Z.compare_spec (a / 10) (b / 10));
    destruct (Z.compare_spec (a mod 10) (b mod 10));
    destruct (Z.compare_spec a b); try reflexivity; lia.
Qed.

Lemma compare_strftime_HMS (t1 t2 : clock) :
  valid_clock t1 -> valid_clock t2 ->
  String.compare (strftime_HMS t1) (strftime_HMS t2) =
  (seconds_of t1 ?= seconds_of t2).
Proof.
  intros (Hh1 & Hm1 & Hs1) (Hh2 & Hm2 & Hs2).
  unfold strftime_HMS, seconds_of.
  rewrite compare_two_digits by lia. cbn [String.compare].
  change (Ascii.compare ":" ":") with Eq. cbv iota.
  rewrite compare_two_digits by lia. cbn [String.compare].
  change (Ascii.compare ":" ":") with Eq. cbv iota.
  rewrite compare_two_digits by lia. cbn [String.compare].
  destruct (Z.compare_spec (hour t1) (hour t2));
    destruct (Z.compare_spec (minute t1) (minute t2));
    destruct (Z.compare_spec (second t1) (second t2));
    symmetry;
    first [ apply Z.compare_eq_iff | apply Z.compare_lt_iff
          | apply Z.compare_gt_iff ]; lia.
Qed.

Lemma ltb_strftime_HMS (t1 t2 : clock) :
  valid_clock t1 -> valid_clock t2 ->
  (strftime_HMS t1 <? strftime_HMS t2)%string = (seconds_of t1 <? seconds_of t2).
Proof.
  intros H1 H2. unfold String.ltb. rewrite compare_strftime_HMS by assumption.
  unfold Z.ltb. reflexivity.
Qed.

(** ** [format_start_time] and [generate_end_time] *)



(** What [generate_end_time] returns is the text of a time of day. *)
Lemma generate_end_time_canonical (duration : string)
  (start_time : option string) (e : string) :
  generate_end_time duration start_time = Some e ->
  exists t, valid_clock t /\ e = strftime_HMS t.
Proof.
  unfold generate_end_time.
  destruct start_time as [s|]; [|discriminate].
  destruct (strptime_HMS s) as [t|]; [|discriminate].
  destruct (PyStr.int duration) as [h|]; [|discriminate].
  destruct (timedelta_hours h) as [delta|]; [|discriminate].
  destruct (datetime_add t delta) as [total|]; [|discriminate].
  intros [= <-]. eexists. split; [|reflexivity].
  apply clock_of_seconds_valid. apply Z.mod_pos_bound. lia.
Qed.

(** C9: [format_start_time] maps ["02:00 PM"] to 14:00:00 and
    ["11:59 PM"] to 23:59:00, and answers [None], not a time, on the
    malformed ["2pm"]. *)
Theorem format_start_time_examples :
  format_start_time "02:00 PM" = Some "14:00:00" /\
  format_start_time "11:59 PM" = Some "23:59:00" /\
  format_start_time "2pm" = None.
Proof. repeat split; vm_compute; reflexivity. Qed.







(** ** The availability resolver *)

Lemma overlap_sym (s1 e1 s2 e2 : string) :
  overlap s1 e1 s2 e2 = overlap s2 e2 s1 e1.
Proof. unfold overlap. apply andb_comm. Qed.

(** On the texts of times of day the test is the one on the times. *)
Lemma overlap_strftime_HMS (s1 e1 s2 e2 : clock) :
  valid_clock s1 -> valid_clock e1 -> valid_clock s2 -> valid_clock e2 ->
  overlap (strftime_HMS s1) (strftime_HMS e1) (strftime_HMS s2) (strftime_HMS e2)
  = (seconds_of s1 <? seconds_of e2) && (seconds_of s2 <? seconds_of e1).
Proof.
  intros. unfold overlap. rewrite !ltb_strftime_HMS by assumption. reflexivity.
Qed.

Lemma overlap_filter_spec (d s e : string) (r : Booking.t) :
  overlap_filter d s e r = true <->
  Booking.date r = d /\
  overlap (Booking.start_time r) (Booking.end_time r) s e = true.
Proof.
  unfold overlap_filter, overlap.
  rewrite !andb_true_iff, String.eqb_eq. tauto.
Qed.

Lemma in_ids_spec (x : Z) (ids : list Z) : in_ids x ids = true <-> In x ids.
Proof.
  unfold in_ids. rewrite existsb_exists. split.
  - intros (y & Hy & E). apply Z.eqb_eq in E. subst. exact Hy.
  - intros H. exists x. split; [exact H|apply Z.eqb_refl].
Qed.

Lemma in_booked_bay_ids (db : store) (d s e : string) (b : Z) :
  In b (booked_bay_ids db d s e) <->
  exists r, In r (bookings db) /\ Booking.bay_id r = b /\
            overlap_filter d s e r = true.
Proof.
  unfold booked_bay_ids. rewrite in_map_iff. split.
  - intros (r & Hb & Hr). apply filter_In in Hr. exists r. tauto.
  - intros (r & Hr & Hb & Hf). exists r. split; [exact Hb|].
    apply filter_In. tauto.
Qed.

Lemma in_booked_bay_ids_overlap (db : store) (d s e : string) (b : Z) :
  In b (booked_bay_ids db d s e) <->
  exists r, In r (bookings db) /\ Booking.bay_id r = b /\
            Booking.date r = d /\
            overlap (Booking.start_time r) (Booking.end_time r) s e = true.
Proof.
  rewrite in_booked_bay_ids. split; intros (r & Hr & Hb & H); exists r.
  - apply overlap_filter_spec in H. tauto.
  - split; [exact Hr|]. split; [exact Hb|]. apply overlap_filter_spec. exact H.
Qed.

Lemma find_a_bay_occupied (db : store) (d s e : string) :
  booked_bay_ids db d s e <> [] ->
  find_a_bay db d (Some s) (Some e) =
  first_or_none
    (map Bay.id
       (filter (free_and_available (booked_bay_ids db d s e)) (bays db))).
Proof.
  intros Hne. unfold find_a_bay.
  destruct (booked_bay_ids db d s e); [contradiction|reflexivity].
Qed.

Lemma find_a_bay_unoccupied (db : store) (d s e : string) :
  booked_bay_ids db d s e = [] ->
  find_a_bay db d (Some s) (Some e) = first_or_none (map Bay.id (bays db)).
Proof. intros E. unfold find_a_bay. rewrite E. reflexivity. Qed.

Lemma first_or_none_in (ids : list Z) (x : Z) :
  first_or_none ids = Some x -> In x ids.
Proof. destruct ids; [discriminate|]. intros [= ->]. left. reflexivity. Qed.

(** The bay [find_a_bay] returns carries no booking of the date that
    overlaps the window, whatever the status of the booking. *)
Lemma find_a_bay_free (db : store) (d s e : string) (b : Z) :
  find_a_bay db d (Some s) (Some e) = Some b ->
  ~ In b (booked_bay_ids db d s e).
Proof.
  intros Hf Hin.
  rewrite find_a_bay_occupied in Hf by (intros E; rewrite E in Hin; exact Hin).
  apply first_or_none_in, in_map_iff in Hf. destruct Hf as (y & <- & Hy).
  apply filter_In in Hy. destruct Hy as [_ Hy].
  unfold free_and_available in Hy. apply andb_true_iff in Hy.
  destruct Hy as [Hy _]. apply negb_true_iff in Hy.
  apply in_ids_spec in Hin. congruence.
Qed.

(** Where some booking overlaps the window, the bay returned is one the
    store lists as Available. *)
Lemma find_a_bay_occupied_available (db : store) (d s e : string) (b : Z) :
  booked_bay_ids db d s e <> [] ->
  find_a_bay db d (Some s) (Some e) = Some b ->
  exists y, In y (bays db) /\ Bay.id y = b /\ Bay.status y = "Available".
Proof.
  intros Hne Hf. rewrite find_a_bay_occupied in Hf by exact Hne.
  apply first_or_none_in, in_map_iff in Hf. destruct Hf as (y & <- & Hy).
  apply filter_In in Hy. destruct Hy as [Hin Hy].
  unfold free_and_available in Hy. apply andb_true_iff in Hy.
  destruct Hy as [_ Hy]. apply String.eqb_eq in Hy. eauto.
Qed.

(** C2, as the claim states it, fails: a booking made and then cancelled
    still puts its bay in the occupied list of an overlapping window. *)
Lemma cancelled_booking_occupies :
  let db1 := snd (new_booking (Store [Bay.Row 1 "Available"] [] 1)
                    (request "ann@example.com" (2024, 1, 5) "09:00 AM" "2 hours")) in
  let db2 := snd (cancel_booking db1 (cancellation 1 "ann@example.com")) in
  map Booking.status (bookings db2) = ["cancelled"] /\
  booked_bay_ids db2 "2024-1-5" "10:00:00" "12:00:00" = [1].
Proof. vm_compute. split; reflexivity. Qed.

(** C2, amended: for every date and window [start, end), the occupied
    list holds exactly the bay identifiers of the bookings of that date,
    of any status, cancelled ones included, whose interval overlaps the
    window under the strict test [s1 < e2] and [s2 < e1]. *)
Theorem booked_bay_ids_spec (db : store) (d s e : string) (b : Z) :
  In b (booked_bay_ids db d s e) <->
  exists r, In r (bookings db) /\ Booking.bay_id r = b /\
            Booking.date r = d /\
            overlap (Booking.start_time r) (Booking.end_time r) s e = true.
Proof. exact (in_booked_bay_ids_overlap db d s e b). Qed.

(** C3: with no overlapping booking the bays are listed without the
    status test the other branch applies, and an Unavailable bay is
    returned and booked. *)
Theorem find_a_bay_returns_unavailable :
  let db := Store [Bay.Row 1 "Unavailable"; Bay.Row 2 "Available"] [] 1 in
  find_a_bay db "2024-1-5" (Some "09:00:00") (Some "11:00:00") = Some 1 /\
  fst (new_booking db
         (request "ann@example.com" (2024, 1, 5) "09:00 AM" "2 hours"))
  = BookingMade 1 1 "2024-1-5".
Proof. vm_compute. split; reflexivity. Qed.

Lemma eligible_iff (db : store) (d s e : string) (b : Bay.t) :
  eligible db d s e b <->
  In b (bays db) /\ free_and_available (booked_bay_ids db d s e) b = true.
Proof.
  unfold eligible, free_and_available.
  rewrite andb_true_iff, negb_true_iff, String.eqb_eq.
  rewrite <- in_ids_spec. destruct (in_ids _ _); intuition congruence.
Qed.





(** ** Booking *)

(** What [new_booking] can do to the store: nothing, or append one
    booked row on the bay [find_a_bay] returned. *)
Lemma new_booking_cases (db : store) (data : parameters) :
  (snd (new_booking db data) = db /\
   forall i b d, fst (new_booking db data) <> BookingMade i b d) \/
  exists email bay d s e dur,
    customer_email data = Some email /\
    find_a_bay db d (Some s) (Some e) = Some bay /\
    new_booking db data =
    (BookingMade (next_id db) bay d,
     Store (bays db)
       (bookings db
        ++ [Booking.Row (next_id db) email bay d s e "booked" dur])%list
       (next_id db + 1)).
Proof.
  unfold new_booking.
  destruct (booking_duration data) as [raw|]; [|left; split; [reflexivity|discriminate]].
  destruct (booking_date data) as [ymd|]; [|left; split; [reflexivity|discriminate]].
  destruct (booking_start_time data) as [st|]; [|left; split; [reflexivity|discriminate]].
  destruct (find_a_bay db (format_date ymd) (format_start_time st)
              (generate_end_time (PyStr.split_space_head raw)
                 (format_start_time st))) as [bay|] eqn:Hf;
    [|left; split; [reflexivity|discriminate]].
  destruct (customer_email data) as [email|];
    [|left; split; [reflexivity|discriminate]].
  destruct (format_start_time st) as [s|];
    [|left; split; [reflexivity|discriminate]].
  destruct (generate_end_time (PyStr.split_space_head raw) (Some s)) as [e|];
    [|left; split; [reflexivity|discriminate]].
  right. exists email, bay, (format_date ymd), s, e, (PyStr.split_space_head raw).
  repeat split. exact Hf.
Qed.

Lemma find_a_bay_no_overlap (db : store) (d s e : string) (bay : Z)
  (x : Booking.t) :
  find_a_bay db d (Some s) (Some e) = Some bay ->
  In x (bookings db) -> Booking.date x = d -> Booking.bay_id x = bay ->
  overlap (Booking.start_time x) (Booking.end_time x) s e = false.
Proof.
  intros Hf Hin Hd Hb.
  destruct (overlap _ _ s e) eqn:Ho; [|reflexivity].
  exfalso. apply (find_a_bay_free _ _ _ _ _ Hf).
  apply in_booked_bay_ids_overlap. exists x. auto.
Qed.

Lemma no_double_booking_snoc (rows : list Booking.t) (r : Booking.t) :
  no_double_booking rows ->
  (forall x, In x rows ->
             Booking.date x = Booking.date r ->
             Booking.bay_id x = Booking.bay_id r ->
             overlap (Booking.start_time x) (Booking.end_time x)
               (Booking.start_time r) (Booking.end_time r) = false) ->
  no_double_booking (rows ++ [r]).
Proof.
  intros Hinv Hnew i j r1 r2 Hij H1 H2 S1 S2 Hd Hb.
  assert (Hlen : forall k y, nth_error (rows ++ [r]) k = Some y ->
                 (k < List.length rows)%nat /\ nth_error rows k = Some y
                 \/ k = List.length rows /\ y = r).
  { intros k y Hk. destruct (Nat.lt_ge_cases k (List.length rows)) as [Hlt|Hge].
    - left. rewrite nth_error_app1 in Hk by exact Hlt. auto.
    - right. rewrite nth_error_app2 in Hk by exact Hge.
      destruct (k - List.length rows)%nat as [|n] eqn:E.
      + cbn in Hk. injection Hk as <-. split; [lia|reflexivity].
      + cbn in Hk. destruct n; discriminate. }
  destruct (Hlen _ _ H1) as [[L1 N1]|[L1 ->]];
    destruct (Hlen _ _ H2) as [[L2 N2]|[L2 ->]].
  - exact (Hinv i j r1 r2 Hij N1 N2 S1 S2 Hd Hb).
  - apply Hnew; auto. eapply nth_error_In; eassumption.
  - rewrite overlap_sym. apply Hnew; auto. eapply nth_error_In; eassumption.
  - lia.
Qed.

Lemma new_booking_no_double_booking (db : store) (data : parameters) :
  no_double_booking (bookings db) ->
  no_double_booking (bookings (snd (new_booking db data))).
Proof.
  intros Hinv.
  destruct (new_booking_cases db data)
    as [[-> _]|(email & bay & d & s & e & dur & _ & Hf & ->)]; [exact Hinv|].
  cbn [snd bookings]. apply no_double_booking_snoc; [exact Hinv|].
  cbn. intros x Hx Hd Hb. eapply find_a_bay_no_overlap; eassumption.
Qed.

(** C1: after any sequence of [new_booking] operations starting from a
    store in which no two booked reservations on the same date and bay
    overlap, no two distinct booked reservations on the same date and
    bay overlap. *)
Theorem run_bookings_no_double_booking (db : store) (reqs : list parameters) :
  no_double_booking (bookings db) ->
  no_double_booking (bookings (run_bookings db reqs)).
Proof.
  revert db. induction reqs as [|data rest IH]; intros db Hinv.
  - exact Hinv.
  - cbn [run_bookings]. apply IH. apply new_booking_no_double_booking.
    exact Hinv.
Qed.

Lemma run_bookings_no_double_booking_witness :
  no_double_booking (bookings two_booked) /\
  map Booking.bay_id (bookings (run_bookings two_booked three_requests))
  = [1; 2; 3; 1] /\
  no_double_booking (bookings (run_bookings two_booked three_requests)).
Proof.
  assert (H0 : no_double_booking (bookings two_booked)).
  { intros i j r1 r2 Hij H1 H2 _ _ _ Hb.
    destruct i as [|[|i]], j as [|[|j]]; cbn in H1, H2;
      try congruence;
      try (destruct i; discriminate); try (destruct j; discriminate).
    - injection H1 as <-. injection H2 as <-. discriminate Hb.
    - injection H1 as <-. injection H2 as <-. discriminate Hb. }
  split; [exact H0|]. split; [vm_compute; reflexivity|].
  exact (run_bookings_no_double_booking two_booked three_requests H0).
Defined.

(** Cancellations keep the invariant too: a row they touch is no longer
    booked, and the other rows are as they were. *)
Lemma cancel_booking_no_double_booking (db : store) (data : parameters) :
  no_double_booking (bookings db) ->
  no_double_booking (bookings (snd (cancel_booking db data))).
Proof.
  intros Hinv. unfold cancel_booking.
  destruct (booking_id data) as [i|]; [|exact Hinv].
  destruct (customer_email data) as [e|]; [|exact Hinv].
  unfold update_status.
  assert (H : no_double_booking
                (map (fun r => if cancel_filter i (PyStr.lower e) r
                               then set_status "cancelled" r else r)
                   (bookings db))).
  { intros a b r1 r2 Hab H1 H2 S1 S2 Hd Hb.
    rewrite nth_error_map in H1, H2.
    destruct (nth_error (bookings db) a) as [x1|] eqn:N1; [|discriminate].
    destruct (nth_error (bookings db) b) as [x2|] eqn:N2; [|discriminate].
    cbn in H1, H2. injection H1 as <-. injection H2 as <-.
    destruct (cancel_filter i (PyStr.lower e) x1); [discriminate S1|].
    destruct (cancel_filter i (PyStr.lower e) x2); [discriminate S2|].
    exact (Hinv a b x1 x2 Hab N1 N2 S1 S2 Hd Hb). }
  destruct (map (set_status "cancelled") _); exact H.
Qed.

Lemma handle_request_no_double_booking (db : store) (tag : string)
  (data : parameters) :
  no_double_booking (bookings db) ->
  no_double_booking (bookings (snd (handle_request db tag data))).
Proof.
  intros Hinv. unfold handle_request.
  destruct (tag =? "makeNewBooking")%string;
    [apply new_booking_no_double_booking; exact Hinv|].
  destruct (tag =? "cancelBooking")%string;
    [apply cancel_booking_no_double_booking; exact Hinv|exact Hinv].
Qed.

(** A row whose start is earlier than its end overlaps its own window. *)
Lemma row_occupies_own_window (db : store) (r : Booking.t) :
  In r (bookings db) ->
  (Booking.start_time r <? Booking.end_time r)%string = true ->
  In (Booking.bay_id r)
    (booked_bay_ids db (Booking.date r) (Booking.start_time r)
       (Booking.end_time r)).
Proof.
  intros Hin Hlt. apply in_booked_bay_ids_overlap. exists r.
  unfold overlap. rewrite Hlt. auto.
Qed.

(** C8: the row a successful [new_booking] persists, when its start is
    earlier than its end, is reported by the overlap query on its own
    date and window: its bay is in the occupied list and [find_a_bay]
    does not return that bay for the window again. *)
Theorem new_booking_round_trip (db db' : store) (data : parameters)
  (i b : Z) (d : string) :
  new_booking db data = (BookingMade i b d, db') ->
  exists r,
    bookings db' = (bookings db ++ [r])%list /\
    Booking.id r = i /\ Booking.bay_id r = b /\ Booking.date r = d /\
    Booking.status r = "booked" /\
    ((Booking.start_time r <? Booking.end_time r)%string = true ->
     In b (booked_bay_ids db' d (Booking.start_time r) (Booking.end_time r)) /\
     find_a_bay db' d (Some (Booking.start_time r)) (Some (Booking.end_time r))
     <> Some b).
Proof.
  intros Hn.
  destruct (new_booking_cases db data)
    as [[_ Hno]|(email & bay & d0 & s & e & dur & _ & Hf & E)].
  - exfalso. apply (Hno i b d). rewrite Hn. reflexivity.
  - rewrite E in Hn. injection Hn as <- <- <- <-.
    exists (Booking.Row (next_id db) email bay d0 s e "booked" dur).
    cbn [bookings Booking.id Booking.bay_id Booking.date Booking.status
         Booking.start_time Booking.end_time].
    repeat (split; [reflexivity|]). intros Hlt.
    assert (Hocc : In bay
      (booked_bay_ids
         (Store (bays db)
            (bookings db
             ++ [Booking.Row (next_id db) email bay d0 s e "booked" dur])%list
            (next_id db + 1)) d0 s e)).
    { apply (row_occupies_own_window _
               (Booking.Row (next_id db) email bay d0 s e "booked" dur)).
      - cbn [bookings]. apply in_or_app. right. left. reflexivity.
      - exact Hlt. }
    split; [exact Hocc|].
    intros Hf'. exact (find_a_bay_free _ _ _ _ _ Hf' Hocc).
Qed.

Lemma new_booking_round_trip_witness :
  let data := request "ann@example.com" (2024, 1, 5) "09:00 AM" "2 hours" in
  let db' := snd (new_booking three_bays data) in
  new_booking three_bays data = (BookingMade 1 1 "2024-1-5", db') /\
  exists r,
    bookings db' = (bookings three_bays ++ [r])%list /\
    Booking.id r = 1 /\ Booking.bay_id r = 1 /\ Booking.date r = "2024-1-5" /\
    Booking.status r = "booked" /\
    ((Booking.start_time r <? Booking.end_time r)%string = true ->
     In 1 (booked_bay_ids db' "2024-1-5" (Booking.start_time r)
             (Booking.end_time r)) /\
     find_a_bay db' "2024-1-5" (Some (Booking.start_time r))
       (Some (Booking.end_time r)) <> Some 1).
Proof.
  cbv zeta.
  assert (E : new_booking three_bays
                (request "ann@example.com" (2024, 1, 5) "09:00 AM" "2 hours")
              = (BookingMade 1 1 "2024-1-5",
                 snd (new_booking three_bays
                        (request "ann@example.com" (2024, 1, 5) "09:00 AM"
                           "2 hours")))) by (vm_compute; reflexivity).
  split; [exact E|].
  exact (new_booking_round_trip _ _ _ _ _ _ E).
Defined.

(** ** Cancellation *)

Lemma set_status_same (r : Booking.t) (st : string) :
  Booking.status r = st -> set_status st r = r.
Proof. destruct r. cbn. intros ->. reflexivity. Qed.

Lemma update_status_cancelled_row (i : Z) (e : string)
  (rows : list Booking.t) (n : nat) (r : Booking.t) :
  nth_error rows n = Some r -> Booking.status r = "cancelled" ->
  nth_error (fst (update_status i e "cancelled" rows)) n = Some r.
Proof.
  intros Hn Hs. unfold update_status. cbn [fst].
  rewrite nth_error_map, Hn. cbn.
  destruct (cancel_filter i e r); [rewrite set_status_same by exact Hs|];
    reflexivity.
Qed.

(** No cancellation changes a row that is already cancelled. *)
Lemma cancel_booking_cancelled_row (db : store) (data : parameters)
  (n : nat) (r : Booking.t) :
  nth_error (bookings db) n = Some r -> Booking.status r = "cancelled" ->
  nth_error (bookings (snd (cancel_booking db data))) n = Some r.
Proof.
  intros Hn Hs. unfold cancel_booking.
  destruct (booking_id data) as [i|]; [|exact Hn].
  destruct (customer_email data) as [e|]; [|exact Hn].
  pose proof (update_status_cancelled_row i (PyStr.lower e) _ _ _ Hn Hs) as H.
  unfold update_status in *. cbn [fst] in H.
  destruct (map (set_status "cancelled") _); exact H.
Qed.

(** No booking changes a row the table already holds. *)
Lemma new_booking_keeps_rows (db : store) (data : parameters)
  (n : nat) (r : Booking.t) :
  nth_error (bookings db) n = Some r ->
  nth_error (bookings (snd (new_booking db data))) n = Some r.
Proof.
  intros Hn.
  destruct (new_booking_cases db data)
    as [[-> _]|(email & bay & d & s & e & dur & _ & _ & ->)]; [exact Hn|].
  cbn [snd bookings]. rewrite nth_error_app1; [exact Hn|].
  apply nth_error_Some. congruence.
Qed.

(** C4, as the claim states it, fails: cancelling the booking a second
    time, with its identifier and email, answers that the booking has
    been cancelled, not that no booking was found. *)
Lemma cancel_booking_twice :
  let db1 := snd (new_booking three_bays
                    (request "ann@example.com" (2024, 1, 5) "09:00 AM" "2 hours")) in
  let db2 := snd (cancel_booking db1 (cancellation 1 "ann@example.com")) in
  map Booking.status (bookings db2) = ["cancelled"] /\
  fst (cancel_booking db2 (cancellation 1 "ann@example.com")) = Cancelled.
Proof. vm_compute. split; reflexivity. Qed.

(** C4, amended: for every reservation whose status is already
    cancelled, [cancel_booking] with that reservation's identifier and
    matching email answers that the booking has been cancelled, the
    update having no condition on the current status, and leaves the
    reservation unchanged; no request changes a cancelled reservation,
    so its status goes from booked to cancelled at most once. *)
Theorem cancel_booking_already_cancelled (db : store) (data : parameters)
  (i : Z) (e : string) (n : nat) (r : Booking.t) :
  booking_id data = Some i -> customer_email data = Some e ->
  nth_error (bookings db) n = Some r ->
  Booking.id r = i -> Booking.email r = PyStr.lower e ->
  Booking.status r = "cancelled" ->
  fst (cancel_booking db data) = Cancelled /\
  forall (tag : string) (data' : parameters),
    nth_error (bookings (snd (handle_request db tag data'))) n = Some r.
Proof.
  intros Hi He Hn Hid Hem Hs. split.
  - unfold cancel_booking. rewrite Hi, He. unfold update_status.
    assert (Hin : In r (filter (cancel_filter i (PyStr.lower e)) (bookings db))).
    { apply filter_In. split; [eapply nth_error_In; eassumption|].
      unfold cancel_filter. rewrite Hid, Hem, Z.eqb_refl, String.eqb_refl.
      reflexivity. }
    destruct (filter (cancel_filter i (PyStr.lower e)) (bookings db));
      [contradiction|reflexivity].
  - intros tag data'. unfold handle_request.
    destruct (tag =? "makeNewBooking")%string;
      [apply new_booking_keeps_rows; exact Hn|].
    destruct (tag =? "cancelBooking")%string;
      [apply cancel_booking_cancelled_row; assumption|exact Hn].
Qed.

Lemma cancel_booking_already_cancelled_witness :
  let db := Store (bays three_bays)
              [Booking.Row 1 "ann@example.com" 1 "2024-1-5" "09:00:00"
                 "11:00:00" "cancelled" "2"] 2 in
  let r := Booking.Row 1 "ann@example.com" 1 "2024-1-5" "09:00:00" "11:00:00"
             "cancelled" "2" in
  let data := cancellation 1 "Ann@Example.com" in
  booking_id data = Some 1 /\ customer_email data = Some "Ann@Example.com" /\
  nth_error (bookings db) 0 = Some r /\
  Booking.id r = 1 /\ Booking.email r = PyStr.lower "Ann@Example.com" /\
  Booking.status r = "cancelled" /\
  fst (cancel_booking db data) = Cancelled /\
  forall (tag : string) (data' : parameters),
    nth_error (bookings (snd (handle_request db tag data'))) 0 = Some r.
Proof.
  cbv zeta.
  do 6 (split; [reflexivity|]).
  exact (cancel_booking_already_cancelled
           (Store (bays three_bays)
              [Booking.Row 1 "ann@example.com" 1 "2024-1-5" "09:00:00"
                 "11:00:00" "cancelled" "2"] 2)
           (cancellation 1 "Ann@Example.com") 1 "Ann@Example.com" 0%nat
           (Booking.Row 1 "ann@example.com" 1 "2024-1-5" "09:00:00" "11:00:00"
              "cancelled" "2")
           eq_refl eq_refl eq_refl eq_refl eq_refl eq_refl).
Defined.

(** The email a booking persists is the request's, letter for letter. *)
Lemma new_booking_email_verbatim (db db' : store) (data : parameters)
  (i b : Z) (d : string) :
  new_booking db data = (BookingMade i b d, db') ->
  exists r, bookings db' = (bookings db ++ [r])%list /\
            customer_email data = Some (Booking.email r).
Proof.
  intros Hn.
  destruct (new_booking_cases db data)
    as [[_ Hno]|(email & bay & d0 & s & e & dur & He & _ & E)].
  - exfalso. apply (Hno i b d). rewrite Hn. reflexivity.
  - rewrite E in Hn. injection Hn as <- <- <- <-.
    eexists. split; [reflexivity|exact He].
Qed.

(** C6: [new_booking] persists the requester email as given, without the
    lowering [cancel_booking] applies to its own argument; a booking made
    with capitals in the email is not found by a cancellation with the
    very same email. *)
Theorem new_booking_keeps_email_case :
  let data := request "Bob@Example.com" (2024, 1, 5) "09:00 AM" "2 hours" in
  let db1 := snd (new_booking three_bays data) in
  fst (new_booking three_bays data) = BookingMade 1 1 "2024-1-5" /\
  map Booking.email (bookings db1) = ["Bob@Example.com"] /\
  PyStr.lower "Bob@Example.com" = "bob@example.com" /\
  fst (cancel_booking db1 (cancellation 1 "Bob@Example.com")) = NotFound /\
  map Booking.status
    (bookings (snd (cancel_booking db1 (cancellation 1 "Bob@Example.com"))))
  = ["booked"].
Proof. vm_compute. repeat split; reflexivity. Qed.

(** * Further properties of the code *)

(** ** Time utilities *)

Lemma hour_of_12_mod (i : Z) (pm : bool) :
  1 <= i <= 12 -> hour_of_12 i pm = i mod 12 + (if pm then 12 else 0).
Proof. intros Hi. enum_below i 13; try lia; destruct pm; reflexivity. Qed.

(** What [%I] followed by a colon reads of a two-digit hour. *)
Lemma dir_I_colon {B} (k : Z -> Re.matcher B) (i : Z) (rest : string) :
  1 <= i <= 12 ->
  Re.bind Re.dir_I (fun a => Re.bind (Re.lit ":") (fun _ => k a))
    (two_digits i (String ":" rest)) = k i rest.
Proof.
  intros Hi. unfold Re.bind.
  enum_below i 13; try lia;
    vm_compute Re.dir_I; cbn [flat_map];
    vm_compute Re.lit; cbn [flat_map app]; rewrite ?app_nil_r; reflexivity.
Qed.

(** X1: [format_start_time] turns every two-digit 12-hour text into the
    24-hour text of the same time: 12 AM is hour 00, 12 PM is hour 12,
    the other PM hours gain 12, and the seconds are 00. *)
Theorem format_start_time_twelve_hour (i m : Z) (pm : bool) :
  1 <= i <= 12 -> 0 <= m < 60 ->
  format_start_time (twelve_hour_text i m pm) =
  Some (strftime_HMS (Clock (i mod 12 + (if pm then 12 else 0)) m 0)).
Proof.
  intros Hi Hm. unfold format_start_time, strptime_IMp, twelve_hour_text.
  unfold Re.full_match. rewrite dir_I_colon by exact Hi.
  unfold Re.bind. rewrite dir_M_two_digits by lia. cbn [flat_map].
  rewrite <- (hour_of_12_mod i pm Hi).
  destruct pm; vm_compute Re.spaces; cbn [flat_map app];
    vm_compute Re.dir_p; cbn [flat_map app Re.ret]; reflexivity.
Qed.

Lemma format_start_time_twelve_hour_witness :
  1 <= 12 <= 12 /\ 0 <= 30 < 60 /\
  format_start_time "12:30 AM" = Some "00:30:00".
Proof.
  split; [lia|]. split; [lia|].
  exact (format_start_time_twelve_hour 12 30 false ltac:(lia) ltac:(lia)).
Defined.

(** X2: whatever text [format_start_time] accepts, the text it returns
    is the ['HH:MM:SS'] form of a time of day with seconds 00, and
    [strptime] with ['%H:%M:%S'] reads that very time back from it. *)
Theorem format_start_time_canonical (raw s : string) :
  format_start_time raw = Some s ->
  exists t, valid_clock t /\ second t = 0 /\ s = strftime_HMS t /\
            strptime_HMS s = Some t.
Proof.
  unfold format_start_time.
  destruct (strptime_IMp raw) as [t|] eqn:E; [|discriminate].
  intros [= <-]. apply strptime_IMp_valid in E. destruct E as [Ht H0].
  exists t. auto using strptime_strftime_HMS.
Qed.

Lemma format_start_time_canonical_witness :
  format_start_time "7:05 pm" = Some "19:05:00" /\
  exists t, valid_clock t /\ second t = 0 /\ "19:05:00" = strftime_HMS t /\
            strptime_HMS "19:05:00" = Some t.
Proof.
  assert (E : format_start_time "7:05 pm" = Some "19:05:00") by reflexivity.
  split; [exact E|]. exact (format_start_time_canonical _ _ E).
Defined.



Lemma timedelta_hours_some (h delta : Z) :
  timedelta_hours h = Some delta -> delta = h * 3600.
Proof.
  unfold timedelta_hours.
  destruct (Z.abs (h * 3600 / 86400) <=? timedelta_max_days);
    [intros [= <-]; reflexivity|discriminate].
Qed.

Lemma datetime_add_some (t : clock) (delta total : Z) :
  datetime_add t delta = Some total ->
  total = (ordinal_1900 - 1) * 86400 + seconds_of t + delta /\
  0 <= total < ordinal_max * 86400.
Proof.
  unfold datetime_add.
  set (x := (ordinal_1900 - 1) * 86400 + seconds_of t + delta).
  destruct ((0 <=? x) && (x <? ordinal_max * 86400)) eqn:Hr; [|discriminate].
  intros [= <-]. apply andb_true_iff in Hr. rewrite Z.leb_le, Z.ltb_lt in Hr.
  split; [reflexivity|exact Hr].
Qed.

Lemma generate_end_time_inv (duration : string)
  (start_time : option string) (e : string) :
  generate_end_time duration start_time = Some e ->
  exists s t h,
    start_time = Some s /\ strptime_HMS s = Some t /\
    PyStr.int duration = Some h /\ datetime_range t h /\
    e = strftime_HMS (clock_of_seconds ((seconds_of t + h * 3600) mod 86400)).
Proof.
  unfold generate_end_time.
  destruct start_time as [s|]; [|discriminate].
  destruct (strptime_HMS s) as [t|] eqn:Hs; [|discriminate].
  destruct (PyStr.int duration) as [h|] eqn:Hd; [|discriminate].
  destruct (timedelta_hours h) as [delta|] eqn:Htd; [|discriminate].
  destruct (datetime_add t delta) as [total|] eqn:Hadd; [|discriminate].
  intros [= <-]. apply timedelta_hours_some in Htd. subst delta.
  apply datetime_add_some in Hadd. destruct Hadd as [-> Hr].
  exists s, t, h.
  split; [reflexivity|]. split; [exact Hs|]. split; [reflexivity|].
  split; [exact Hr|].
  do 2 f_equal.
  replace ((ordinal_1900 - 1) * 86400 + seconds_of t + h * 3600)
    with (seconds_of t + h * 3600 + (ordinal_1900 - 1) * 86400) by lia.
  apply Z.mod_add. lia.
Qed.






(** ** The availability resolver *)

(** X7: the bay [find_a_bay] returns carries no booking of the requested
    date, booked or cancelled, whose interval overlaps the window. *)
Theorem find_a_bay_clear_of_bookings (db : store) (d s e : string) (b : Z)
  (r : Booking.t) :
  find_a_bay db d (Some s) (Some e) = Some b ->
  In r (bookings db) -> Booking.date r = d -> Booking.bay_id r = b ->
  overlap (Booking.start_time r) (Booking.end_time r) s e = false.
Proof. apply find_a_bay_no_overlap. Qed.

Lemma find_a_bay_clear_of_bookings_witness :
  let r := Booking.Row 1 "ann@example.com" 1 "2024-1-5" "09:00:00" "11:00:00"
             "booked" "2" in
  find_a_bay two_booked "2024-1-5" (Some "11:00:00") (Some "12:00:00") = Some 1 /\
  In r (bookings two_booked) /\ Booking.date r = "2024-1-5" /\
  Booking.bay_id r = 1 /\
  overlap (Booking.start_time r) (Booking.end_time r) "11:00:00" "12:00:00"
  = false.
Proof.
  cbv zeta.
  assert (Hf : find_a_bay two_booked "2024-1-5" (Some "11:00:00")
                 (Some "12:00:00") = Some 1) by reflexivity.
  assert (Hin : In (Booking.Row 1 "ann@example.com" 1 "2024-1-5" "09:00:00"
                      "11:00:00" "booked" "2") (bookings two_booked))
    by (left; reflexivity).
  split; [exact Hf|]. split; [exact Hin|]. split; [reflexivity|].
  split; [reflexivity|].
  exact (find_a_bay_clear_of_bookings two_booked "2024-1-5" "11:00:00"
           "12:00:00" 1 _ Hf Hin eq_refl eq_refl).
Defined.

(** X8: when at least one booking of the date overlaps the window, the
    bay [find_a_bay] returns is a bay of the table whose status is
    Available. *)
Theorem find_a_bay_filtered_is_available (db : store) (d s e : string) (b : Z) :
  booked_bay_ids db d s e <> [] ->
  find_a_bay db d (Some s) (Some e) = Some b ->
  exists y, In y (bays db) /\ Bay.id y = b /\ Bay.status y = "Available".
Proof. apply find_a_bay_occupied_available. Qed.

Lemma find_a_bay_filtered_is_available_witness :
  booked_bay_ids two_booked "2024-1-5" "10:00:00" "11:00:00" <> [] /\
  find_a_bay two_booked "2024-1-5" (Some "10:00:00") (Some "11:00:00") = Some 3 /\
  exists y, In y (bays two_booked) /\ Bay.id y = 3 /\
            Bay.status y = "Available".
Proof.
  assert (Hne : booked_bay_ids two_booked "2024-1-5" "10:00:00" "11:00:00" <> [])
    by (vm_compute; discriminate).
  assert (Hf : find_a_bay two_booked "2024-1-5" (Some "10:00:00")
                 (Some "11:00:00") = Some 3) by reflexivity.
  split; [exact Hne|]. split; [exact Hf|].
  exact (find_a_bay_filtered_is_available _ _ _ _ _ Hne Hf).
Defined.

(** X9: [find_a_bay] does not answer [None] while an eligible bay
    exists: if some Available bay has no overlapping booking of the
    date, a bay is returned. *)
Theorem find_a_bay_finds_eligible (db : store) (d s e : string) (b0 : Bay.t) :
  eligible db d s e b0 ->
  exists b, find_a_bay db d (Some s) (Some e) = Some b.
Proof.
  intros H0. pose proof H0 as [Hin _].
  apply eligible_iff in H0. destruct H0 as [_ Hp].
  destruct (booked_bay_ids db d s e) as [|i0 ids] eqn:E.
  - rewrite find_a_bay_unoccupied by exact E.
    destruct (bays db) as [|y rest]; [contradiction|]. exists (Bay.id y).
    reflexivity.
  - rewrite <- E in *. rewrite find_a_bay_occupied by congruence.
    assert (Hf : In b0 (filter (free_and_available (booked_bay_ids db d s e))
                          (bays db))) by (apply filter_In; auto).
    destruct (filter _ (bays db)) as [|y rest]; [contradiction|].
    exists (Bay.id y). reflexivity.
Qed.

Lemma find_a_bay_finds_eligible_witness :
  eligible two_booked "2024-1-5" "10:00:00" "11:00:00" (Bay.Row 3 "Available") /\
  exists b,
    find_a_bay two_booked "2024-1-5" (Some "10:00:00") (Some "11:00:00") = Some b.
Proof.
  assert (He : eligible two_booked "2024-1-5" "10:00:00" "11:00:00"
                 (Bay.Row 3 "Available")).
  { apply eligible_iff. split; [right; right; left; reflexivity|reflexivity]. }
  split; [exact He|].
  exact (find_a_bay_finds_eligible _ _ _ _ _ He).
Defined.

(** X10: whatever the date and the times, given or [None], a bay
    [find_a_bay] returns is the identifier of a row of the bays table. *)
Theorem find_a_bay_in_table (db : store) (d : string)
  (start_time end_time : option string) (b : Z) :
  find_a_bay db d start_time end_time = Some b ->
  exists y, In y (bays db) /\ Bay.id y = b.
Proof.
  unfold find_a_bay.
  destruct start_time as [s|]; [|discriminate].
  destruct end_time as [e|]; [|discriminate].
  destruct (booked_bay_ids db d s e); intros Hf;
    apply first_or_none_in, in_map_iff in Hf; destruct Hf as (y & Hy & Hin).
  - eauto.
  - apply filter_In in Hin. destruct Hin. eauto.
Qed.

Lemma find_a_bay_in_table_witness :
  find_a_bay three_bays "2024-1-5" (Some "09:00:00") (Some "11:00:00") = Some 1 /\
  exists y, In y (bays three_bays) /\ Bay.id y = 1.
Proof.
  assert (Hf : find_a_bay three_bays "2024-1-5" (Some "09:00:00")
                 (Some "11:00:00") = Some 1) by reflexivity.
  split; [exact Hf|]. exact (find_a_bay_in_table _ _ _ _ _ Hf).
Defined.

Lemma filter_head_split {A} (p : A -> bool) (l : list A) (y : A) (l' : list A) :
  filter p l = y :: l' ->
  exists l1 l2, l = (l1 ++ y :: l2)%list /\ p y = true /\
                forall x, In x l1 -> p x = false.
Proof.
  induction l as [|a l IH]; [discriminate|]. cbn [filter].
  destruct (p a) eqn:Ea.
  - intros [= -> _]. exists [], l. split; [reflexivity|].
    split; [exact Ea|]. intros x [].
  - intros Hf. destruct (IH Hf) as (l1 & l2 & El & Hy & Hl1).
    exists (a :: l1), l2. split; [rewrite El; reflexivity|].
    split; [exact Hy|]. intros x [<-|Hx]; auto.
Qed.

(** X11: when some booking of the date overlaps the window, the bay
    returned is the first eligible one in the order the store lists the
    bays: every bay listed before it is not Available or carries an
    overlapping booking. *)
Theorem find_a_bay_first_listed (db : store) (d s e : string) (b : Z) :
  booked_bay_ids db d s e <> [] ->
  find_a_bay db d (Some s) (Some e) = Some b ->
  exists l1 y l2,
    bays db = (l1 ++ y :: l2)%list /\ Bay.id y = b /\
    eligible db d s e y /\
    forall x, In x l1 -> ~ eligible db d s e x.
Proof.
  intros Hne Hf. rewrite find_a_bay_occupied in Hf by exact Hne.
  destruct (filter (free_and_available (booked_bay_ids db d s e)) (bays db))
    as [|y l'] eqn:E; [discriminate|].
  cbn in Hf. injection Hf as <-.
  destruct (filter_head_split _ _ _ _ E) as (l1 & l2 & Hb & Hy & Hl1).
  exists l1, y, l2. split; [exact Hb|]. split; [reflexivity|]. split.
  - apply eligible_iff. split; [|exact Hy].
    rewrite Hb. apply in_or_app. right. left. reflexivity.
  - intros x Hx Hel. apply eligible_iff in Hel. destruct Hel as [_ Hp].
    rewrite (Hl1 x Hx) in Hp. discriminate.
Qed.

Lemma find_a_bay_first_listed_witness :
  booked_bay_ids two_booked "2024-1-5" "10:00:00" "11:00:00" <> [] /\
  find_a_bay two_booked "2024-1-5" (Some "10:00:00") (Some "11:00:00") = Some 3 /\
  exists l1 y l2,
    bays two_booked = (l1 ++ y :: l2)%list /\ Bay.id y = 3 /\
    eligible two_booked "2024-1-5" "10:00:00" "11:00:00" y /\
    forall x, In x l1 -> ~ eligible two_booked "2024-1-5" "10:00:00" "11:00:00" x.
Proof.
  assert (Hne : booked_bay_ids two_booked "2024-1-5" "10:00:00" "11:00:00" <> [])
    by (vm_compute; discriminate).
  assert (Hf : find_a_bay two_booked "2024-1-5" (Some "10:00:00")
                 (Some "11:00:00") = Some 3) by reflexivity.
  split; [exact Hne|]. split; [exact Hf|].
  exact (find_a_bay_first_listed _ _ _ _ _ Hne Hf).
Defined.

Lemma booked_bay_ids_update_status (i : Z) (em st : string) (db : store)
  (d s e : string) :
  booked_bay_ids
    (Store (bays db) (fst (update_status i em st (bookings db))) (next_id db))
    d s e
  = booked_bay_ids db d s e.
Proof.
  unfold booked_bay_ids, update_status. cbn [fst bookings].
  induction (bookings db) as [|r l IH]; [reflexivity|].
  cbn [map filter].
  assert (Hf : overlap_filter d s e
                 (if cancel_filter i em r then set_status st r else r)
               = overlap_filter d s e r)
    by (destruct (cancel_filter i em r); reflexivity).
  rewrite Hf. destruct (overlap_filter d s e r); [|exact IH].
  cbn [map]. rewrite IH. f_equal. destruct (cancel_filter i em r); reflexivity.
Qed.

(** X12: a cancellation never frees a bay: after [cancel_booking],
    whatever it answered, [find_a_bay] returns for every date and window
    what it returned before. *)
Theorem cancel_booking_frees_nothing (db : store) (data : parameters)
  (d : string) (start_time end_time : option string) :
  find_a_bay (snd (cancel_booking db data)) d start_time end_time
  = find_a_bay db d start_time end_time.
Proof.
  assert (H : forall db', bays db' = bays db ->
                (forall s e, booked_bay_ids db' d s e = booked_bay_ids db d s e) ->
                find_a_bay db' d start_time end_time
                = find_a_bay db d start_time end_time).
  { intros db' Hb Hi. unfold find_a_bay.
    destruct start_time as [s|]; [|reflexivity].
    destruct end_time as [e|]; [|reflexivity].
    rewrite Hi, Hb. reflexivity. }
  unfold cancel_booking.
  destruct (booking_id data) as [i|]; [|reflexivity].
  destruct (customer_email data) as [em|]; [|reflexivity].
  pose proof (booked_bay_ids_update_status i (PyStr.lower em) "cancelled" db d)
    as Hu.
  unfold update_status in *. cbn [fst] in Hu.
  destruct (map (set_status "cancelled") _); cbn [snd];
    apply H; try reflexivity; exact Hu.
Qed.

(** ** Booking *)

(** What a successful [new_booking] read, computed and wrote. *)
Lemma new_booking_made (db db' : store) (data : parameters) (i b : Z)
  (d : string) :
  new_booking db data = (BookingMade i b d, db') ->
  exists raw_dur ymd raw_start email s e,
    booking_duration data = Some raw_dur /\
    booking_date data = Some ymd /\
    booking_start_time data = Some raw_start /\
    customer_email data = Some email /\
    format_start_time raw_start = Some s /\
    generate_end_time (PyStr.split_space_head raw_dur) (Some s) = Some e /\
    find_a_bay db (format_date ymd) (Some s) (Some e) = Some b /\
    i = next_id db /\ d = format_date ymd /\
    db' = Store (bays db)
            (bookings db
             ++ [Booking.Row i email b d s e "booked"
                   (PyStr.split_space_head raw_dur)])%list
            (next_id db + 1).
Proof.
  unfold new_booking.
  destruct (booking_duration data) as [raw|]; [|discriminate].
  destruct (booking_date data) as [ymd|]; [|discriminate].
  destruct (booking_start_time data) as [st|]; [|discriminate].
  destruct (find_a_bay db (format_date ymd) (format_start_time st)
              (generate_end_time (PyStr.split_space_head raw)
                 (format_start_time st))) as [bay|] eqn:Hf; [|discriminate].
  destruct (customer_email data) as [email|]; [|discriminate].
  destruct (format_start_time st) as [s|] eqn:Hs; [|discriminate].
  destruct (generate_end_time (PyStr.split_space_head raw) (Some s)) as [e|]
    eqn:He; [|discriminate].
  cbn. intros [= <- <- <- <-].
  exists raw, ymd, st, email, s, e.
  do 4 (split; [reflexivity|]). split; [exact Hs|]. split; [exact He|].
  split; [exact Hf|]. repeat split.
Qed.

(** X13: unless it answers that the booking was made, [new_booking]
    writes nothing: after a refusal or a failure the store is the one it
    was given. *)
Theorem new_booking_refusal_writes_nothing (db : store) (data : parameters) :
  (forall i b d, fst (new_booking db data) <> BookingMade i b d) ->
  snd (new_booking db data) = db.
Proof.
  intros Hno.
  destruct (new_booking_cases db data)
    as [[E _]|(email & bay & d & s & e & dur & _ & _ & E)]; [exact E|].
  exfalso. apply (Hno (next_id db) bay d). rewrite E. reflexivity.
Qed.

Lemma new_booking_refusal_writes_nothing_witness :
  let data := request "dan@example.com" (2024, 1, 5) "10:30 AM" "1 hour" in
  let db := run_bookings two_booked
              [request "cat@example.com" (2024, 1, 5) "10:00 AM" "1 hour"] in
  fst (new_booking db data) = NoBays /\
  (forall i b d, fst (new_booking db data) <> BookingMade i b d) /\
  snd (new_booking db data) = db.
Proof.
  cbv zeta.
  assert (E : fst (new_booking
                     (run_bookings two_booked
                        [request "cat@example.com" (2024, 1, 5) "10:00 AM"
                           "1 hour"])
                     (request "dan@example.com" (2024, 1, 5) "10:30 AM" "1 hour"))
              = NoBays) by (vm_compute; reflexivity).
  assert (Hno : forall i b d,
             fst (new_booking
                    (run_bookings two_booked
                       [request "cat@example.com" (2024, 1, 5) "10:00 AM"
                          "1 hour"])
                    (request "dan@example.com" (2024, 1, 5) "10:30 AM" "1 hour"))
             <> BookingMade i b d) by (intros i b d; rewrite E; discriminate).
  split; [exact E|]. split; [exact Hno|].
  exact (new_booking_refusal_writes_nothing _ _ Hno).
Defined.

(** X14: the row a successful [new_booking] appends is booked on the
    bay [find_a_bay] returned for its own date and times; its start is
    the text of a time of day with seconds 00, its stored duration the
    text before the first space of the request's, read as a whole number
    [h], and its end the start plus [h] hours modulo 24 hours.  The bays
    table and the earlier rows are as they were. *)
Theorem new_booking_row (db db' : store) (data : parameters) (i b : Z)
  (d : string) :
  new_booking db data = (BookingMade i b d, db') ->
  exists r raw_dur t h,
    bays db' = bays db /\ bookings db' = (bookings db ++ [r])%list /\
    Booking.id r = i /\ Booking.bay_id r = b /\ Booking.date r = d /\
    Booking.status r = "booked" /\
    find_a_bay db d (Some (Booking.start_time r)) (Some (Booking.end_time r))
    = Some b /\
    valid_clock t /\ second t = 0 /\ Booking.start_time r = strftime_HMS t /\
    booking_duration data = Some raw_dur /\
    Booking.duration r = PyStr.split_space_head raw_dur /\
    PyStr.int (Booking.duration r) = Some h /\
    Booking.end_time r =
    strftime_HMS (clock_of_seconds ((seconds_of t + h * 3600) mod 86400)).
Proof.
  intros Hn.
  destruct (new_booking_made _ _ _ _ _ _ Hn)
    as (raw & ymd & st & email & s & e & Hd & _ & _ & _ & Hs & He & Hf
        & -> & -> & ->).
  destruct (generate_end_time_inv _ _ _ He) as (s' & t & h & Es & Ht & Hi & _ & ->).
  injection Es as <-.
  unfold format_start_time in Hs.
  destruct (strptime_IMp st) as [t0|] eqn:E0; [|discriminate].
  injection Hs as <-. apply strptime_IMp_valid in E0. destruct E0 as [Hv H0].
  rewrite (strptime_strftime_HMS t0 Hv) in Ht. injection Ht as <-.
  eexists. exists raw, t0, h. cbn [bays bookings].
  split; [reflexivity|]. split; [reflexivity|]. cbn.
  split; [reflexivity|]. split; [reflexivity|]. split; [reflexivity|].
  split; [reflexivity|]. split; [exact Hf|]. split; [exact Hv|].
  split; [exact H0|]. split; [reflexivity|]. split; [exact Hd|].
  split; [reflexivity|]. split; [exact Hi|reflexivity].
Qed.

Lemma new_booking_row_witness :
  let data := request "ann@example.com" (2024, 1, 5) "11:00 PM" "3 hours" in
  let db' := snd (new_booking three_bays data) in
  new_booking three_bays data = (BookingMade 1 1 "2024-1-5", db') /\
  map Booking.end_time (bookings db') = ["02:00:00"] /\
  exists r raw_dur t h,
    bays db' = bays three_bays /\
    bookings db' = (bookings three_bays ++ [r])%list /\
    Booking.id r = 1 /\ Booking.bay_id r = 1 /\ Booking.date r = "2024-1-5" /\
    Booking.status r = "booked" /\
    find_a_bay three_bays "2024-1-5" (Some (Booking.start_time r))
      (Some (Booking.end_time r)) = Some 1 /\
    valid_clock t /\ second t = 0 /\ Booking.start_time r = strftime_HMS t /\
    booking_duration data = Some raw_dur /\
    Booking.duration r = PyStr.split_space_head raw_dur /\
    PyStr.int (Booking.duration r) = Some h /\
    Booking.end_time r =
    strftime_HMS (clock_of_seconds ((seconds_of t + h * 3600) mod 86400)).
Proof.
  cbv zeta.
  assert (E : new_booking three_bays
                (request "ann@example.com" (2024, 1, 5) "11:00 PM" "3 hours")
              = (BookingMade 1 1 "2024-1-5",
                 snd (new_booking three_bays
                        (request "ann@example.com" (2024, 1, 5) "11:00 PM"
                           "3 hours")))) by (vm_compute; reflexivity).
  split; [exact E|]. split; [vm_compute; reflexivity|].
  exact (new_booking_row _ _ _ _ _ _ E).
Defined.

(** X15: a start time [format_start_time] cannot read, or a duration
    whose first word [int()] cannot read, does not make [new_booking]
    report an error: with the three booking parameters present, the
    answer is that no bays are available, and nothing is written. *)
Theorem new_booking_unreadable_input (db : store) (data : parameters)
  (raw_dur raw_start : string) (ymd : Z * Z * Z) :
  booking_duration data = Some raw_dur ->
  booking_date data = Some ymd ->
  booking_start_time data = Some raw_start ->
  format_start_time raw_start = None
  \/ PyStr.int (PyStr.split_space_head raw_dur) = None ->
  new_booking db data = (NoBays, db).
Proof.
  intros Hd Hy Hs Hbad. unfold new_booking. rewrite Hd, Hy, Hs.
  assert (He : generate_end_time (PyStr.split_space_head raw_dur)
                 (format_start_time raw_start) = None).
  { destruct Hbad as [Hf|Hi].
    - rewrite Hf. reflexivity.
    - unfold generate_end_time.
      destruct (format_start_time raw_start) as [s|]; [|reflexivity].
      destruct (strptime_HMS s); [|reflexivity]. rewrite Hi. reflexivity. }
  rewrite He. unfold find_a_bay.
  destruct (format_start_time raw_start); reflexivity.
Qed.

Lemma new_booking_unreadable_input_witness :
  let data := request "ann@example.com" (2024, 1, 5) "2pm" "two hours" in
  booking_duration data = Some "two hours" /\
  booking_date data = Some (2024, 1, 5) /\
  booking_start_time data = Some "2pm" /\
  (format_start_time "2pm" = None
   \/ PyStr.int (PyStr.split_space_head "two hours") = None) /\
  new_booking three_bays data = (NoBays, three_bays).
Proof.
  cbv zeta.
  assert (Hbad : format_start_time "2pm" = None
                 \/ PyStr.int (PyStr.split_space_head "two hours") = None)
    by (left; reflexivity).
  do 3 (split; [reflexivity|]). split; [exact Hbad|].
  exact (new_booking_unreadable_input three_bays
           (request "ann@example.com" (2024, 1, 5) "2pm" "two hours")
           "two hours" "2pm" (2024, 1, 5) eq_refl eq_refl eq_refl Hbad).
Defined.

(** X16: a request lacking one of its four parameters is never booked
    and leaves the store as it was. *)
Theorem new_booking_missing_parameter (db : store) (data : parameters) :
  booking_duration data = None \/ booking_date data = None
  \/ booking_start_time data = None \/ customer_email data = None ->
  snd (new_booking db data) = db /\
  forall i b d, fst (new_booking db data) <> BookingMade i b d.
Proof.
  intros Hmiss.
  destruct (new_booking db data) as [resp db'] eqn:E.
  assert (Hno : forall i b d, resp <> BookingMade i b d).
  { intros i b d ->.
    destruct (new_booking_made _ _ _ _ _ _ E)
      as (raw & ymd & st & email & s & e & H1 & H2 & H3 & H4 & _).
    destruct Hmiss as [H|[H|[H|H]]]; congruence. }
  split; [|exact Hno].
  destruct (new_booking_cases db data)
    as [[Es _]|(email & bay & d & s & e & dur & _ & _ & E')].
  - rewrite E in Es. exact Es.
  - rewrite E in E'. injection E' as -> _. exfalso. exact (Hno _ _ _ eq_refl).
Qed.

Lemma new_booking_missing_parameter_witness :
  let data := Parameters None None (Some "2 hours") (Some (2024, 1, 5))
                (Some "09:00 AM") in
  (booking_duration data = None \/ booking_date data = None
   \/ booking_start_time data = None \/ customer_email data = None) /\
  fst (new_booking three_bays data) = BookingFailed /\
  snd (new_booking three_bays data) = three_bays /\
  forall i b d, fst (new_booking three_bays data) <> BookingMade i b d.
Proof.
  cbv zeta.
  assert (Hm : booking_duration
                 (Parameters None None (Some "2 hours") (Some (2024, 1, 5))
                    (Some "09:00 AM")) = None
               \/ booking_date
                    (Parameters None None (Some "2 hours") (Some (2024, 1, 5))
                       (Some "09:00 AM")) = None
               \/ booking_start_time
                    (Parameters None None (Some "2 hours") (Some (2024, 1, 5))
                       (Some "09:00 AM")) = None
               \/ customer_email
                    (Parameters None None (Some "2 hours") (Some (2024, 1, 5))
                       (Some "09:00 AM")) = None)
    by (right; right; right; reflexivity).
  split; [exact Hm|]. split; [vm_compute; reflexivity|].
  exact (new_booking_missing_parameter three_bays _ Hm).
Defined.

Lemma booked_bay_ids_snoc_outside (db : store) (r : Booking.t) (n : Z)
  (d s e : string) :
  overlap_filter d s e r = false ->
  booked_bay_ids (Store (bays db) (bookings db ++ [r])%list n) d s e
  = booked_bay_ids db d s e.
Proof.
  intros Hr. unfold booked_bay_ids. cbn [bookings].
  rewrite filter_app. cbn [filter]. rewrite Hr, app_nil_r. reflexivity.
Qed.

(** X17: a booking whose end text is not later than its start text,
    as when the duration carries it past midnight, does not occupy
    its bay for its own window: the same request, sent again, is booked
    a second time on the same bay. *)
Theorem new_booking_repeats_past_midnight (db db' : store) (data : parameters)
  (i b : Z) (d : string) (r : Booking.t) :
  new_booking db data = (BookingMade i b d, db') ->
  bookings db' = (bookings db ++ [r])%list ->
  (Booking.start_time r <? Booking.end_time r)%string = false ->
  fst (new_booking db' data) = BookingMade (i + 1) b d.
Proof.
  intros Hn Hrow Hlt.
  destruct (new_booking_made _ _ _ _ _ _ Hn)
    as (raw & ymd & st & email & s & e & Hd & Hy & Hst & Hem & Hs & He & Hf
        & -> & -> & ->).
  cbn [bookings] in Hrow. apply app_inv_head in Hrow. injection Hrow as <-.
  cbn [Booking.start_time Booking.end_time] in Hlt.
  unfold new_booking. rewrite Hd, Hy, Hst, Hem, Hs, He.
  assert (Hf' : find_a_bay
                  (Store (bays db)
                     (bookings db
                      ++ [Booking.Row (next_id db) email b (format_date ymd) s e
                            "booked" (PyStr.split_space_head raw)])%list
                     (next_id db + 1)) (format_date ymd) (Some s) (Some e)
                = Some b).
  { rewrite <- Hf. unfold find_a_bay.
    rewrite booked_bay_ids_snoc_outside; [reflexivity|].
    unfold overlap_filter. cbn. rewrite Hlt.
    destruct (format_date ymd =? format_date ymd)%string; reflexivity. }
  rewrite Hf'. reflexivity.
Qed.

Lemma new_booking_repeats_past_midnight_witness :
  let data := request "ann@example.com" (2024, 1, 5) "11:00 PM" "3 hours" in
  let db' := snd (new_booking three_bays data) in
  let r := Booking.Row 1 "ann@example.com" 1 "2024-1-5" "23:00:00" "02:00:00"
             "booked" "3" in
  new_booking three_bays data = (BookingMade 1 1 "2024-1-5", db') /\
  bookings db' = (bookings three_bays ++ [r])%list /\
  (Booking.start_time r <? Booking.end_time r)%string = false /\
  fst (new_booking db' data) = BookingMade (1 + 1) 1 "2024-1-5".
Proof.
  cbv zeta.
  assert (E : new_booking three_bays
                (request "ann@example.com" (2024, 1, 5) "11:00 PM" "3 hours")
              = (BookingMade 1 1 "2024-1-5",
                 snd (new_booking three_bays
                        (request "ann@example.com" (2024, 1, 5) "11:00 PM"
                           "3 hours")))) by (vm_compute; reflexivity).
  assert (Hrow : bookings
                   (snd (new_booking three_bays
                           (request "ann@example.com" (2024, 1, 5) "11:00 PM"
                              "3 hours")))
                 = (bookings three_bays
                    ++ [Booking.Row 1 "ann@example.com" 1 "2024-1-5" "23:00:00"
                          "02:00:00" "booked" "3"])%list)
    by (vm_compute; reflexivity).
  split; [exact E|]. split; [exact Hrow|]. split; [reflexivity|].
  exact (new_booking_repeats_past_midnight _ _ _ _ _ _ _ E Hrow eq_refl).
Defined.

(** X18: when every bay of the table carries a booking of the date that
    overlaps the window, [find_a_bay] returns [None]. *)
Theorem find_a_bay_all_occupied (db : store) (d s e : string) :
  (forall y, In y (bays db) -> In (Bay.id y) (booked_bay_ids db d s e)) ->
  find_a_bay db d (Some s) (Some e) = None.
Proof.
  intros Hall. destruct (booked_bay_ids db d s e) as [|i0 ids] eqn:E.
  - rewrite find_a_bay_unoccupied by exact E.
    destruct (bays db) as [|y rest]; [reflexivity|].
    destruct (Hall y (or_introl eq_refl)).
  - rewrite <- E in *. rewrite find_a_bay_occupied by congruence.
    destruct (filter (free_and_available (booked_bay_ids db d s e)) (bays db))
      as [|y rest] eqn:Ef; [reflexivity|].
    assert (Hy : In y (filter (free_and_available (booked_bay_ids db d s e))
                          (bays db))) by (rewrite Ef; left; reflexivity).
    apply filter_In in Hy. destruct Hy as [Hin Hp].
    unfold free_and_available in Hp. apply andb_true_iff in Hp.
    destruct Hp as [Hp _]. apply negb_true_iff in Hp.
    apply Hall, in_ids_spec in Hin. congruence.
Qed.

Lemma find_a_bay_all_occupied_witness :
  let db := run_bookings two_booked
              [request "cat@example.com" (2024, 1, 5) "10:00 AM" "1 hour"] in
  (forall y, In y (bays db) ->
             In (Bay.id y) (booked_bay_ids db "2024-1-5" "10:30:00" "11:30:00")) /\
  find_a_bay db "2024-1-5" (Some "10:30:00") (Some "11:30:00") = None.
Proof.
  cbv zeta.
  assert (Hall : forall y,
             In y (bays (run_bookings two_booked
                           [request "cat@example.com" (2024, 1, 5) "10:00 AM"
                              "1 hour"])) ->
             In (Bay.id y)
               (booked_bay_ids
                  (run_bookings two_booked
                     [request "cat@example.com" (2024, 1, 5) "10:00 AM"
                        "1 hour"]) "2024-1-5" "10:30:00" "11:30:00")).
  { intros y Hy. vm_compute in Hy. vm_compute.
    destruct Hy as [<-|[<-|[<-|[]]]]; cbn; tauto. }
  split; [exact Hall|].
  exact (find_a_bay_all_occupied _ _ _ _ Hall).
Defined.

(** ** Cancellation *)

Lemma store_eta (db : store) : Store (bays db) (bookings db) (next_id db) = db.
Proof. destruct db. reflexivity. Qed.

Lemma cancel_filter_set_status (i : Z) (e st : string) (r : Booking.t) :
  cancel_filter i e (set_status st r) = cancel_filter i e r.
Proof. reflexivity. Qed.

Lemma filter_map_comm {A} (p : A -> bool) (f : A -> A) (l : list A) :
  (forall x, p (f x) = p x) ->
  filter p (map f l) = map f (filter p l).
Proof.
  intros H. induction l as [|a l IH]; [reflexivity|].
  cbn [map filter]. rewrite H. destruct (p a); cbn [map]; rewrite IH;
    reflexivity.
Qed.

(** X19: when no row has both the identifier and the lowered email of
    the request, as with a wrong email for a right identifier,
    [cancel_booking] answers that no booking was found and leaves the
    store as it was. *)
Theorem cancel_booking_no_match (db : store) (data : parameters) (i : Z)
  (e : string) :
  booking_id data = Some i -> customer_email data = Some e ->
  (forall r, In r (bookings db) ->
             Booking.id r <> i \/ Booking.email r <> PyStr.lower e) ->
  cancel_booking db data = (NotFound, db).
Proof.
  intros Hi He Hno. unfold cancel_booking, update_status. rewrite Hi, He.
  assert (Hf : forall r, In r (bookings db) ->
                         cancel_filter i (PyStr.lower e) r = false).
  { intros r Hr. unfold cancel_filter. apply andb_false_iff.
    destruct (Hno r Hr) as [H|H];
      [left; apply Z.eqb_neq|right; apply String.eqb_neq]; exact H. }
  assert (E1 : filter (cancel_filter i (PyStr.lower e)) (bookings db) = []).
  { induction (bookings db) as [|a l IH]; [reflexivity|].
    cbn [filter]. rewrite (Hf a (or_introl eq_refl)).
    apply IH. intros r Hr. apply Hno. right. exact Hr.
    intros r Hr. apply Hf. right. exact Hr. }
  assert (E2 : map (fun r => if cancel_filter i (PyStr.lower e) r
                             then set_status "cancelled" r else r)
                 (bookings db) = bookings db).
  { rewrite <- (map_id (bookings db)) at 2. apply map_ext_in.
    intros r Hr. rewrite (Hf r Hr). reflexivity. }
  rewrite E1, E2. cbn. rewrite store_eta. reflexivity.
Qed.

Lemma cancel_booking_no_match_witness :
  let db := snd (new_booking three_bays
                   (request "ann@example.com" (2024, 1, 5) "09:00 AM" "2 hours")) in
  let data := cancellation 1 "bob@example.com" in
  booking_id data = Some 1 /\ customer_email data = Some "bob@example.com" /\
  (forall r, In r (bookings db) ->
             Booking.id r <> 1 \/ Booking.email r <> PyStr.lower "bob@example.com") /\
  cancel_booking db data = (NotFound, db).
Proof.
  cbv zeta.
  assert (Hno : forall r,
             In r (bookings
                     (snd (new_booking three_bays
                             (request "ann@example.com" (2024, 1, 5) "09:00 AM"
                                "2 hours")))) ->
             Booking.id r <> 1
             \/ Booking.email r <> PyStr.lower "bob@example.com").
  { intros r Hr. vm_compute in Hr. destruct Hr as [<-|[]].
    right. vm_compute. discriminate. }
  split; [reflexivity|]. split; [reflexivity|]. split; [exact Hno|].
  exact (cancel_booking_no_match _ (cancellation 1 "bob@example.com") 1
           "bob@example.com" eq_refl eq_refl Hno).
Defined.

(** X20: when a row has the identifier of the request and, as its
    email, the lowered email of the request, [cancel_booking] answers
    that the booking has been cancelled, and afterwards that row has
    status cancelled and every other field as before. *)
Theorem cancel_booking_match (db : store) (data : parameters) (i : Z)
  (e : string) (n : nat) (r : Booking.t) :
  booking_id data = Some i -> customer_email data = Some e ->
  nth_error (bookings db) n = Some r ->
  Booking.id r = i -> Booking.email r = PyStr.lower e ->
  fst (cancel_booking db data) = Cancelled /\
  exists r', nth_error (bookings (snd (cancel_booking db data))) n = Some r' /\
             Booking.status r' = "cancelled" /\ same_but_status r r'.
Proof.
  intros Hi He Hn Hid Hem.
  assert (Hc : cancel_filter i (PyStr.lower e) r = true).
  { unfold cancel_filter. rewrite Hid, Hem, Z.eqb_refl, String.eqb_refl.
    reflexivity. }
  unfold cancel_booking, update_status. rewrite Hi, He.
  assert (Hin : In r (filter (cancel_filter i (PyStr.lower e)) (bookings db))).
  { apply filter_In. split; [eapply nth_error_In; eassumption|exact Hc]. }
  destruct (filter (cancel_filter i (PyStr.lower e)) (bookings db))
    as [|x l]; [contradiction|].
  cbn [map fst snd bookings]. split; [reflexivity|].
  exists (set_status "cancelled" r). rewrite nth_error_map, Hn. cbn.
  rewrite Hc. split; [reflexivity|]. split; [reflexivity|].
  unfold same_but_status. cbn. tauto.
Qed.

Lemma cancel_booking_match_witness :
  let db := snd (new_booking three_bays
                   (request "ann@example.com" (2024, 1, 5) "09:00 AM" "2 hours")) in
  let data := cancellation 1 "Ann@Example.COM" in
  let r := Booking.Row 1 "ann@example.com" 1 "2024-1-5" "09:00:00" "11:00:00"
             "booked" "2" in
  booking_id data = Some 1 /\ customer_email data = Some "Ann@Example.COM" /\
  nth_error (bookings db) 0 = Some r /\
  Booking.id r = 1 /\ Booking.email r = PyStr.lower "Ann@Example.COM" /\
  fst (cancel_booking db data) = Cancelled /\
  exists r', nth_error (bookings (snd (cancel_booking db data))) 0 = Some r' /\
             Booking.status r' = "cancelled" /\ same_but_status r r'.
Proof.
  cbv zeta.
  assert (Hn : nth_error
                 (bookings
                    (snd (new_booking three_bays
                            (request "ann@example.com" (2024, 1, 5) "09:00 AM"
                               "2 hours")))) 0
               = Some (Booking.Row 1 "ann@example.com" 1 "2024-1-5" "09:00:00"
                         "11:00:00" "booked" "2")) by (vm_compute; reflexivity).
  split; [reflexivity|]. split; [reflexivity|]. split; [exact Hn|].
  split; [reflexivity|]. split; [reflexivity|].
  exact (cancel_booking_match _ (cancellation 1 "Ann@Example.COM") 1
           "Ann@Example.COM" 0%nat _ eq_refl eq_refl Hn eq_refl eq_refl).
Defined.

(** X21: [cancel_booking] touches no row of another identifier or
    another email: such a row is afterwards exactly what it was,
    whatever the request. *)
Theorem cancel_booking_other_rows (db : store) (data : parameters) (n : nat)
  (r : Booking.t) :
  nth_error (bookings db) n = Some r ->
  (forall i e, booking_id data = Some i -> customer_email data = Some e ->
               Booking.id r <> i \/ Booking.email r <> PyStr.lower e) ->
  nth_error (bookings (snd (cancel_booking db data))) n = Some r.
Proof.
  intros Hn Hother. unfold cancel_booking, update_status.
  destruct (booking_id data) as [i|]; [|exact Hn].
  destruct (customer_email data) as [e|]; [|exact Hn].
  assert (Hc : cancel_filter i (PyStr.lower e) r = false).
  { unfold cancel_filter. apply andb_false_iff.
    destruct (Hother i e eq_refl eq_refl) as [H|H];
      [left; apply Z.eqb_neq|right; apply String.eqb_neq]; exact H. }
  assert (H : nth_error
                (map (fun x => if cancel_filter i (PyStr.lower e) x
                               then set_status "cancelled" x else x)
                   (bookings db)) n = Some r).
  { rewrite nth_error_map, Hn. cbn. rewrite Hc. reflexivity. }
  destruct (map (set_status "cancelled") _); exact H.
Qed.

Lemma cancel_booking_other_rows_witness :
  let r := Booking.Row 2 "bob@example.com" 2 "2024-1-5" "10:00:00" "12:00:00"
             "booked" "2" in
  let data := cancellation 1 "ann@example.com" in
  nth_error (bookings two_booked) 1 = Some r /\
  (forall i e, booking_id data = Some i -> customer_email data = Some e ->
               Booking.id r <> i \/ Booking.email r <> PyStr.lower e) /\
  fst (cancel_booking two_booked data) = Cancelled /\
  nth_error (bookings (snd (cancel_booking two_booked data))) 1 = Some r.
Proof.
  cbv zeta.
  assert (Ho : forall i e,
             booking_id (cancellation 1 "ann@example.com") = Some i ->
             customer_email (cancellation 1 "ann@example.com") = Some e ->
             Booking.id (Booking.Row 2 "bob@example.com" 2 "2024-1-5"
                           "10:00:00" "12:00:00" "booked" "2") <> i
             \/ Booking.email (Booking.Row 2 "bob@example.com" 2 "2024-1-5"
                                 "10:00:00" "12:00:00" "booked" "2")
                <> PyStr.lower e).
  { intros i e [= <-] _. left. cbn. discriminate. }
  split; [reflexivity|]. split; [exact Ho|]. split; [reflexivity|].
  exact (cancel_booking_other_rows two_booked (cancellation 1 "ann@example.com")
           1%nat _ eq_refl Ho).
Defined.

(** X22: cancelling is idempotent: the same request sent a second time
    gets the same answer as the first time and leaves the store the
    first call left. *)
Theorem cancel_booking_idempotent (db : store) (data : parameters) :
  cancel_booking (snd (cancel_booking db data)) data = cancel_booking db data.
Proof.
  unfold cancel_booking, update_status.
  destruct (booking_id data) as [i|]; [|reflexivity].
  destruct (customer_email data) as [e|]; [|reflexivity].
  set (cf := cancel_filter i (PyStr.lower e)).
  set (f := fun r => if cf r then set_status "cancelled" r else r).
  assert (Hcf : forall x, cf (f x) = cf x).
  { intros x. unfold f. destruct (cf x) eqn:E; [|exact E].
    unfold cf. rewrite cancel_filter_set_status. exact E. }
  assert (Hff : forall x, f (f x) = f x).
  { intros x. unfold f at 1. rewrite Hcf. unfold f.
    destruct (cf x); reflexivity. }
  assert (E1 : map f (map f (bookings db)) = map f (bookings db)).
  { rewrite map_map. apply map_ext. exact Hff. }
  assert (E2 : map (set_status "cancelled") (filter cf (map f (bookings db)))
               = map (set_status "cancelled") (filter cf (bookings db))).
  { rewrite filter_map_comm by exact Hcf. rewrite map_map.
    apply map_ext_in. intros x Hx. apply filter_In in Hx. destruct Hx as [_ Hx].
    unfold f. rewrite Hx. reflexivity. }
  destruct (map (set_status "cancelled") (filter cf (bookings db)))
    as [|x l] eqn:Eu; cbn [snd bays bookings next_id];
    rewrite E2, E1; reflexivity.
Qed.

(** ** The HTTP entry point *)

Lemma row_evolves_refl (r : Booking.t) : row_evolves r r.
Proof. unfold row_evolves, same_but_status. tauto. Qed.

Lemma row_evolves_trans (r1 r2 r3 : Booking.t) :
  row_evolves r1 r2 -> row_evolves r2 r3 -> row_evolves r1 r3.
Proof.
  unfold row_evolves, same_but_status.
  intros [(A1 & A2 & A3 & A4 & A5 & A6 & A7) HA]
         [(B1 & B2 & B3 & B4 & B5 & B6 & B7) HB].
  split; [repeat split; congruence|].
  destruct HB as [HB|HB]; [|right; exact HB].
  destruct HA as [HA|HA]; [left|right]; congruence.
Qed.

Lemma cancel_booking_rows (db : store) (data : parameters) (n : nat)
  (r : Booking.t) :
  nth_error (bookings db) n = Some r ->
  exists r', nth_error (bookings (snd (cancel_booking db data))) n = Some r' /\
             row_evolves r r'.
Proof.
  intros Hn. unfold cancel_booking, update_status.
  destruct (booking_id data) as [i|];
    [|exists r; split; [exact Hn|apply row_evolves_refl]].
  destruct (customer_email data) as [e|];
    [|exists r; split; [exact Hn|apply row_evolves_refl]].
  assert (H : exists r',
             nth_error
               (map (fun x => if cancel_filter i (PyStr.lower e) x
                              then set_status "cancelled" x else x)
                  (bookings db)) n = Some r' /\ row_evolves r r').
  { rewrite nth_error_map, Hn. cbn.
    destruct (cancel_filter i (PyStr.lower e) r).
    - eexists. split; [reflexivity|].
      unfold row_evolves, same_but_status. cbn. tauto.
    - exists r. split; [reflexivity|apply row_evolves_refl]. }
  destruct (map (set_status "cancelled") _); exact H.
Qed.

Lemma cancel_booking_bays (db : store) (data : parameters) :
  bays (snd (cancel_booking db data)) = bays db.
Proof.
  unfold cancel_booking, update_status.
  destruct (booking_id data); [|reflexivity].
  destruct (customer_email data); [|reflexivity].
  destruct (map (set_status "cancelled") _); reflexivity.
Qed.

Lemma new_booking_bays (db : store) (data : parameters) :
  bays (snd (new_booking db data)) = bays db.
Proof.
  destruct (new_booking_cases db data)
    as [[-> _]|(email & bay & d & s & e & dur & _ & _ & ->)]; reflexivity.
Qed.

(** The store after one call, by cases on what the call was. *)
Lemma http_step (db : store) (request : Http.t) :
  snd (Http.handle_request db request) = db
  \/ (exists p, snd (Http.handle_request db request) = snd (new_booking db p))
  \/ (exists p, snd (Http.handle_request db request) = snd (cancel_booking db p)).
Proof.
  unfold Http.handle_request.
  destruct (Http.method request =? "OPTIONS")%string; [left; reflexivity|].
  destruct (Http.method request =? "POST")%string; [|left; reflexivity].
  destruct (Http.tag request) as [tg|]; [|left; reflexivity].
  destruct (tg =? "makeNewBooking")%string.
  - unfold Http.new_booking. destruct (Http.data request) as [p|].
    + right. left. exists p. destruct (new_booking db p). reflexivity.
    + left. reflexivity.
  - destruct (tg =? "cancelBooking")%string; [|left; reflexivity].
    unfold Http.cancel_booking. destruct (Http.data request) as [p|].
    + right. right. exists p. destruct (cancel_booking db p). reflexivity.
    + left. reflexivity.
Qed.

(** X23: over any run of calls of the entry point, with any methods,
    tags and bodies, the bays table is never written and no booking is
    deleted or rewritten: a row stays at its place with its identifier,
    email, bay, date, times and duration, and its status is the one it
    had or cancelled. *)
Theorem http_run_keeps_rows (db : store) (requests : list Http.t) (n : nat)
  (r : Booking.t) :
  nth_error (bookings db) n = Some r ->
  bays (Http.run db requests) = bays db /\
  exists r', nth_error (bookings (Http.run db requests)) n = Some r' /\
             row_evolves r r'.
Proof.
  revert db r. induction requests as [|q rest IH]; intros db r Hn.
  - split; [reflexivity|]. exists r. split; [exact Hn|apply row_evolves_refl].
  - cbn [Http.run].
    assert (Hstep : bays (snd (Http.handle_request db q)) = bays db /\
                    exists r1,
                      nth_error (bookings (snd (Http.handle_request db q))) n
                      = Some r1 /\ row_evolves r r1).
    { destruct (http_step db q) as [->|[[p ->]|[p ->]]].
      - split; [reflexivity|]. exists r. split; [exact Hn|apply row_evolves_refl].
      - split; [apply new_booking_bays|]. exists r.
        split; [apply new_booking_keeps_rows; exact Hn|apply row_evolves_refl].
      - split; [apply cancel_booking_bays|].
        apply cancel_booking_rows. exact Hn. }
    destruct Hstep as [Hb (r1 & H1 & E1)].
    destruct (IH _ _ H1) as [Hb' (r' & H' & E')].
    split; [congruence|]. exists r'. split; [exact H'|].
    eapply row_evolves_trans; eassumption.
Qed.

(** Three calls: a booking, a preflight, the cancellation of another
    booking. *)
Lemma http_run_keeps_rows_witness :
  let requests :=
    [Http.Request "POST" (Some "makeNewBooking")
       (Some (request "cat@example.com" (2024, 1, 5) "10:00 AM" "1 hour"));
     Http.Request "OPTIONS" None None;
     Http.Request "POST" (Some "cancelBooking")
       (Some (cancellation 1 "ann@example.com"))] in
  let r := Booking.Row 1 "ann@example.com" 1 "2024-1-5" "09:00:00" "11:00:00"
             "booked" "2" in
  nth_error (bookings two_booked) 0 = Some r /\
  map Booking.status (bookings (Http.run two_booked requests))
  = ["cancelled"; "booked"; "booked"] /\
  bays (Http.run two_booked requests) = bays two_booked /\
  exists r', nth_error (bookings (Http.run two_booked requests)) 0 = Some r' /\
             row_evolves r r'.
Proof.
  cbv zeta. split; [reflexivity|]. split; [vm_compute; reflexivity|].
  exact (http_run_keeps_rows two_booked _ 0%nat _ eq_refl).
Defined.

(** X24: over any run of calls of the entry point, bookings and
    cancellations in any order, no two booked rows on the same date and
    bay come to overlap if none did at the start. *)
Theorem http_run_no_double_booking (db : store) (requests : list Http.t) :
  no_double_booking (bookings db) ->
  no_double_booking (bookings (Http.run db requests)).
Proof.
  revert db. induction requests as [|q rest IH]; intros db Hinv; [exact Hinv|].
  cbn [Http.run]. apply IH.
  destruct (http_step db q) as [->|[[p ->]|[p ->]]].
  - exact Hinv.
  - apply new_booking_no_double_booking. exact Hinv.
  - apply cancel_booking_no_double_booking. exact Hinv.
Qed.

Lemma http_run_no_double_booking_witness :
  let requests :=
    [Http.Request "POST" (Some "makeNewBooking")
       (Some (request "cat@example.com" (2024, 1, 5) "10:00 AM" "1 hour"));
     Http.Request "POST" (Some "cancelBooking")
       (Some (cancellation 1 "ann@example.com"));
     Http.Request "POST" (Some "makeNewBooking")
       (Some (request "dan@example.com" (2024, 1, 5) "01:00 PM" "2 hours"))] in
  no_double_booking (bookings two_booked) /\
  map Booking.bay_id (bookings (Http.run two_booked requests)) = [1; 2; 3; 1] /\
  no_double_booking (bookings (Http.run two_booked requests)).
Proof.
  cbv zeta.
  assert (H0 : no_double_booking (bookings two_booked)).
  { intros i j r1 r2 Hij H1 H2 _ _ _ Hb.
    destruct i as [|[|i]], j as [|[|j]]; cbn in H1, H2;
      try congruence;
      try (destruct i; discriminate); try (destruct j; discriminate).
    - injection H1 as <-. injection H2 as <-. discriminate Hb.
    - injection H1 as <-. injection H2 as <-. discriminate Hb. }
  split; [exact H0|]. split; [vm_compute; reflexivity|].
  exact (http_run_no_double_booking two_booked _ H0).
Defined.

(** X25: the entry point raises, giving no reply, exactly on a method
    that is neither OPTIONS nor POST; every POST is answered with code
    200, whatever its body and whatever the operation answered; and only
    a POST can change the store. *)
Theorem http_reply (db : store) (request : Http.t) :
  (Http.status_code (fst (Http.handle_request db request)) = None <->
   Http.method request <> "OPTIONS" /\ Http.method request <> "POST") /\
  (Http.method request = "POST" ->
   Http.status_code (fst (Http.handle_request db request)) = Some 200) /\
  (Http.method request <> "POST" ->
   snd (Http.handle_request db request) = db).
Proof.
  unfold Http.handle_request.
  destruct (String.eqb_spec (Http.method request) "OPTIONS") as [Eo|No].
  - rewrite Eo. cbn. repeat split; try discriminate; tauto.
  - destruct (String.eqb_spec (Http.method request) "POST") as [Ep|Np].
    + assert (H200 : Http.status_code
                       (fst match Http.tag request with
                            | Some tg =>
                                if (tg =? "makeNewBooking")%string
                                then
                                  let '(r, db') :=
                                    Http.new_booking db (Http.data request) in
                                  (Http.Fulfillment (Http.Text r), db')
                                else
                                  if (tg =? "cancelBooking")%string
                                  then
                                    let '(r, db') :=
                                      Http.cancel_booking db (Http.data request) in
                                    (Http.Fulfillment (Http.Text r), db')
                                  else
                                    (Http.Fulfillment (Http.Text Unsupported), db)
                            | None => (Http.Fulfillment Http.RequestFailed, db)
                            end) = Some 200).
      { destruct (Http.tag request) as [tg|]; [|reflexivity].
        destruct (tg =? "makeNewBooking")%string.
        - destruct (Http.new_booking db (Http.data request)). reflexivity.
        - destruct (tg =? "cancelBooking")%string; [|reflexivity].
          destruct (Http.cancel_booking db (Http.data request)). reflexivity. }
      split; [|split].
      * rewrite H200. split; [discriminate|]. intros [_ H]. contradiction.
      * intros _. exact H200.
      * intros H. contradiction.
    + cbn. repeat split; auto. intros H. contradiction.
Qed.

Lemma http_reply_witness :
  let q := Http.Request "POST" None None in
  Http.method q = "POST" /\
  Http.handle_request three_bays q
  = (Http.Fulfillment Http.RequestFailed, three_bays) /\
  Http.status_code (fst (Http.handle_request three_bays q)) = Some 200 /\
  Http.status_code
    (fst (Http.handle_request three_bays (Http.Request "GET" None None))) = None.
Proof.
  cbv zeta. split; [reflexivity|]. split; [reflexivity|].
  split.
  - exact (proj1 (proj2 (http_reply three_bays (Http.Request "POST" None None)))
             eq_refl).
  - reflexivity.
Defined.
